(** * habitat_sim.utils.settings: the settings resolver [make_cfg]

    A shallow embedding of [src_python/habitat_sim/utils/settings.py] and the
    properties of [make_cfg] that the specification states.

    - Python data ([Dict[str, Any]] settings) is an untyped [value]; a dict is
      an insertion-ordered association list with string keys, as
      [settings["sensors"].items()] is iterated in order.
    - The two module-level tables are the module's state; [make_cfg] runs in a
      state-and-exception monad over it.
    - The engine's classes ([habitat_sim.SimulatorConfiguration],
      [CameraSensorSpec], ...) are bindings that live outside this file: an
      object is its class and its attribute store, and what a constructor
      leaves in a fresh object is a parameter of the development. [setattr]
      stores the value it is given; the conversions that the bound properties
      apply to it are the engine's and are not modelled. *)

From Stdlib Require Import ZArith QArith String.
From stdpp Require Import base option list strings gmap.

Set Warnings "-register-all".
Local Open Scope string_scope.
Local Open Scope Z_scope.

(** ** Python values *)

(** [VEnum e m] is the member [m] of the bound enumeration [e]
    ([habitat_sim.SensorType.COLOR] is [VEnum "SensorType" "COLOR"]); members
    are singletons, so [is] on them is equality. A float literal is the
    rational it denotes, written as in the source. *)
Inductive value : Type :=
| VNone
| VBool (b : bool)
| VInt (n : Z)
| VFloat (q : Q)
| VStr (s : string)
| VEnum (enum member : string)
| VList (xs : list value)
| VDict (items : list (string * value)).

Abbreviation dict := (list (string * value)).

Module PyDict.

(** [d.get(k)] / [d[k]]: the binding of [k]. *)
Fixpoint get (d : dict) (k : string) : option value :=
  match d with
  | [] => None
  | (k', v) :: d' => if String.eqb k' k then Some v else get d' k
  end.

(** [d.get(k, default)] *)
Definition get_default (d : dict) (k : string) (default : value) : value :=
  match get d k with Some v => v | None => default end.

(** [d[k] = v]: an existing key keeps its place, a new one goes last. *)
Fixpoint set (d : dict) (k : string) (v : value) : dict :=
  match d with
  | [] => [(k, v)]
  | (k', v') :: d' =>
      if String.eqb k' k then (k', v) :: d' else (k', v') :: set d' k v
  end.

(** [{**a, **b}]: a copy of [a] updated with the items of [b] in order. *)
Definition merge (a b : dict) : dict :=
  fold_left (fun acc kv => set acc kv.1 kv.2) b a.

(** The keys of a dict are pairwise distinct. *)
Definition wf (d : dict) : Prop := NoDup (d.*1).

End PyDict.

(** ** Exceptions and the module state *)

Inductive exn : Type :=
| KeyError (key : string)
| RuntimeError (msg : string)
| AttributeError (msg : string)
| TypeError (msg : string).

Inductive result (A : Type) : Type :=
| Ok (a : A)
| Raise (e : exn).
Arguments Ok {A} a.
Arguments Raise {A} e.

(** The module-level names that are assigned at import time. *)
Record module_state : Type := ModuleState {
  default_sim_settings : dict;
  default_sensor_settings : dict
}.

(** The tables as the module defines them (lines 10-29). *)
Definition module_init : module_state := {|
  default_sim_settings :=
    [ ("scene_dataset_config_file", VStr "default");
      ("scene", VStr "NONE");
      ("width", VInt 640);
      ("height", VInt 480);
      ("default_agent", VInt 0);
      ("seed", VInt 1);
      ("physics_config_file", VStr "data/default.physics_config.json");
      ("sensors", VDict [ ("color_sensor", VDict []) ]) ];
  default_sensor_settings :=
    [ ("hfov", VInt 90);
      ("position", VList [VInt 0; VFloat (15 # 10); VInt 0]);
      ("orientation", VList [VInt 0; VInt 0; VInt 0]) ]
|}.

(** Computations that read or write the module state and may raise. *)
Definition M (A : Type) : Type := module_state -> result A * module_state.

Definition ret {A} (a : A) : M A := fun g => (Ok a, g).
Definition raise {A} (e : exn) : M A := fun g => (Raise e, g).
Definition bind {A B} (m : M A) (k : A -> M B) : M B :=
  fun g => match m g with
           | (Ok a, g') => k a g'
           | (Raise e, g') => (Raise e, g')
           end.
Definition read_global {A} (name : module_state -> A) : M A :=
  fun g => (Ok (name g), g).

Notation "'do' x <- m ; k" := (bind m (fun x => k))
  (at level 10, x name, m at level 100, k at level 200).

(** [d[k]], raising [KeyError] *)
Definition subscript (d : dict) (k : string) : M value :=
  match PyDict.get d k with
  | Some v => ret v
  | None => raise (KeyError k)
  end.

(** [v.items()] *)
Definition items (v : value) : M dict :=
  match v with
  | VDict d => ret d
  | _ => raise (AttributeError "object has no attribute 'items'")
  end.

(** [{**a, **v}] where [v] is any value: only a mapping can be unpacked. *)
Definition unpack_over (a : dict) (v : value) : M dict :=
  match v with
  | VDict b => ret (PyDict.merge a b)
  | _ => raise (TypeError "object is not a mapping")
  end.

(** [needle in hay] on strings. *)
Fixpoint substring_in (needle hay : string) : bool :=
  String.prefix needle hay ||
  match hay with
  | EmptyString => false
  | String _ hay' => substring_in needle hay'
  end.

(** [v is habitat_sim.<enum>.<member>] *)
Definition is_member (v : value) (enum member : string) : bool :=
  match v with
  | VEnum e m => String.eqb e enum && String.eqb m member
  | _ => false
  end.

(** ** Engine objects *)

Inductive class : Type :=
| SimulatorConfiguration
| CameraSensorSpec
| FisheyeSensorDoubleSphereSpec
| EquirectangularSensorSpec.

Record obj : Type := Obj {
  cls : class;
  attrs : gmap string value
}.

Definition setattr (o : obj) (k : string) (v : value) : obj :=
  {| cls := cls o; attrs := <[k := v]> (attrs o) |}.

Definition getattr (o : obj) (k : string) : option value := attrs o !! k.

Definition hasattr (o : obj) (k : string) : bool :=
  match getattr o k with Some _ => true | None => false end.

(** [for k in kw_args: setattr(spec, k, kw_args[k])] *)
Definition setattrs (o : obj) (kw_args : dict) : obj :=
  fold_left (fun o kv => setattr o kv.1 kv.2) kw_args o.

Record ActuationSpec : Type := { amount : value }.
Record ActionSpec : Type := { name : string; actuation : ActuationSpec }.

Record AgentConfiguration : Type := {
  agent_attrs : gmap string value;
  sensor_specifications : list obj;
  action_space : list (string * ActionSpec)
}.

Record Configuration : Type := {
  sim_cfg : obj;
  agents : list AgentConfiguration
}.

Definition SensorType_COLOR : value := VEnum "SensorType" "COLOR".
Definition SensorSubType_PINHOLE : value := VEnum "SensorSubType" "PINHOLE".
Definition FisheyeSensorModelType_DOUBLE_SPHERE : value :=
  VEnum "FisheyeSensorModelType" "DOUBLE_SPHERE".

(** ** Notions used in the statements *)

(** [needle] occurs in [hay] as a contiguous substring. *)
Definition Contains (needle hay : string) : Prop :=
  exists pre post, hay = pre +:+ needle +:+ post.

(** A computation that leaves the module state as it found it. *)
Definition preserves_state {A} (m : M A) : Prop := forall g, (m g).2 = g.

(** A computation whose result depends on the module state through
    [default_sensor_settings] at most. *)
Definition same_result {A} (m : M A) : Prop :=
  forall g1 g2,
    default_sensor_settings g1 = default_sensor_settings g2 -> (m g1).1 = (m g2).1.

(** ** Sample engines and settings *)

(** An engine whose fresh objects carry no attribute besides the [scene_id] of
    a simulator configuration: every other attribute read back from a result
    is one that [make_cfg] assigned. *)
Definition bare_engine (c : class) : gmap string value :=
  match c with
  | SimulatorConfiguration => {[ "scene_id" := VStr "NONE" ]}
  | _ => ∅
  end.

(** An engine from before [scene_id], the case that line 45 probes for. *)
Definition legacy_engine (c : class) : gmap string value := ∅.

Definition bare_agent : AgentConfiguration :=
  {| agent_attrs := ∅; sensor_specifications := []; action_space := [] |}.

(** [{scene, height: 480, width: 640, sensors: {"a": {}, "b": {}}}] *)
Definition two_sensors : dict :=
  [ ("scene", VStr "apartment.glb");
    ("height", VInt 480);
    ("width", VInt 640);
    ("sensors", VDict [ ("a", VDict []); ("b", VDict []) ]) ].

(** One sensor of each kind, each with settings of its own, and top-level keys
    that [make_cfg] copies, defaults or overrides. *)
Definition three_kinds : dict :=
  [ ("scene", VStr "apartment.glb");
    ("height", VInt 480);
    ("width", VInt 640);
    ("enable_physics", VBool true);
    ("gpu_device_id", VInt 3);
    ("sensors",
     VDict [ ("color_sensor", VDict [ ("hfov", VInt 75) ]);
             ("fisheye_sensor",
              VDict [ ("hfov", VInt 75); ("xi", VFloat (5 # 10));
                      ("resolution", VList [VInt 1; VInt 1]) ]);
             ("equirect_sensor",
              VDict [ ("sensor_type", VEnum "SensorType" "DEPTH") ]) ]) ].

(** Settings without a ["scene"]. *)
Definition no_scene : dict :=
  [ ("height", VInt 480); ("width", VInt 640);
    ("sensors", VDict [ ("color_sensor", VDict []) ]) ].

(** Settings that rely on [default_sim_settings] for everything but the scene. *)
Definition scene_only : dict := [ ("scene", VStr "apartment.glb") ].

(** Settings with a sensor and no frame size, and with a height only. *)
Definition no_frame_size : dict :=
  [ ("scene", VStr "apartment.glb");
    ("sensors", VDict [ ("color_sensor", VDict []) ]) ].

Definition no_width : dict :=
  [ ("scene", VStr "apartment.glb");
    ("height", VInt 480);
    ("sensors", VDict [ ("color_sensor", VDict []) ]) ].

(** A fisheye sensor whose settings name an [hfov]. *)
Definition fisheye_hfov : dict :=
  [ ("scene", VStr "apartment.glb");
    ("height", VInt 480);
    ("width", VInt 640);
    ("sensors", VDict [ ("fisheye_sensor", VDict [ ("hfov", VInt 75) ]) ]) ].

(** A fisheye sensor whose settings name all four lens fields. *)
Definition fisheye_lens_override : dict :=
  [ ("scene", VStr "apartment.glb");
    ("height", VInt 480);
    ("width", VInt 640);
    ("sensors",
     VDict [ ("fisheye_sensor",
              VDict [ ("xi", VFloat (5 # 10));
                      ("alpha", VFloat (9 # 10));
                      ("focal_length", VList [VFloat (100 # 1); VFloat (100 # 1)]);
                      ("principal_point_offset", VList [VInt 1; VInt 1]) ]) ]) ].

(** Settings whose [sensors] dict is empty, and whose [sensors] is a list. *)
Definition no_sensors : dict :=
  [ ("scene", VStr "apartment.glb"); ("sensors", VDict []) ].

Definition sensors_as_list : dict :=
  [ ("scene", VStr "apartment.glb"); ("sensors", VList [VStr "color_sensor"]) ].

(** A second sensor entry whose settings are [None]. *)
Definition bad_entry : dict :=
  [ ("scene", VStr "apartment.glb");
    ("height", VInt 480);
    ("width", VInt 640);
    ("sensors",
     VDict [ ("color_sensor", VDict []);
             ("depth_sensor", VNone);
             ("equirect_sensor", VDict []) ]) ].

(** [three_kinds] with another [gpu_device_id] and two keys more. *)
Definition three_kinds_noisy : dict :=
  [ ("seed", VInt 1);
    ("default_agent", VInt 0);
    ("gpu_device_id", VInt 7);
    ("scene", VStr "apartment.glb");
    ("height", VInt 480);
    ("width", VInt 640);
    ("enable_physics", VBool true);
    ("sensors",
     VDict [ ("color_sensor", VDict [ ("hfov", VInt 75) ]);
             ("fisheye_sensor",
              VDict [ ("hfov", VInt 75); ("xi", VFloat (5 # 10));
                      ("resolution", VList [VInt 1; VInt 1]) ]);
             ("equirect_sensor",
              VDict [ ("sensor_type", VEnum "SensorType" "DEPTH") ]) ]) ].

(** [two_sensors] with another scene and the two sensors in the other order. *)
Definition two_sensors_swapped : dict :=
  [ ("scene", VStr "castle.glb");
    ("height", VInt 480);
    ("width", VInt 640);
    ("sensors", VDict [ ("b", VDict []); ("a", VDict []) ]) ].

(** The module state after [del default_sensor_settings["position"]]. *)
Definition stripped_template : module_state :=
  {| default_sim_settings := default_sim_settings module_init;
     default_sensor_settings :=
       [ ("hfov", VInt 90); ("orientation", VList [VInt 0; VInt 0; VInt 0]) ] |}.

(** The sensor specs of every agent of a configuration, in order. *)
Definition sensor_specifications_of (cfg : Configuration) : list obj :=
  concat (map sensor_specifications (agents cfg)).

Section Resolver.

(** What the engine's constructors return: the attribute store of a fresh
    object of each class, and a fresh [habitat_sim.agent.AgentConfiguration]. *)
Variable engine_defaults : class -> gmap string value.
Variable agent_defaults : AgentConfiguration.

Definition new (c : class) : obj := {| cls := c; attrs := engine_defaults c |}.

Definition create_camera_spec (kw_args : dict) : obj :=
  let camera_sensor_spec := new CameraSensorSpec in
  setattrs camera_sensor_spec kw_args.

Definition create_fisheye_spec (kw_args : dict) : obj :=
  let fisheye_sensor_spec := new FisheyeSensorDoubleSphereSpec in
  let fisheye_sensor_spec :=
    setattr fisheye_sensor_spec "sensor_model_type"
            FisheyeSensorModelType_DOUBLE_SPHERE in
  let fisheye_sensor_spec := setattr fisheye_sensor_spec "xi" (VFloat (-27 # 100)) in
  let fisheye_sensor_spec := setattr fisheye_sensor_spec "alpha" (VFloat (57 # 100)) in
  let fisheye_sensor_spec :=
    setattr fisheye_sensor_spec "focal_length"
            (VList [VFloat (36484 # 100); VFloat (36486 # 100)]) in
  let fisheye_sensor_spec :=
    setattr fisheye_sensor_spec "principal_point_offset" VNone in
  setattrs fisheye_sensor_spec kw_args.

Definition create_equirect_spec (kw_args : dict) : obj :=
  let equirect_sensor_spec := new EquirectangularSensorSpec in
  setattrs equirect_sensor_spec kw_args.

(** The body of the loop over [settings["sensors"].items()] (lines 90-128),
    returning the spec that the iteration appends. *)
Definition sensor_spec (settings : dict) (uuid : string) (sensor_cfg : value)
  : M obj :=
  do defaults <- read_global default_sensor_settings;
  do sensor_cfg <- unpack_over defaults sensor_cfg;
  let sensor_type := PyDict.get_default sensor_cfg "sensor_type" SensorType_COLOR in
  let sensor_subtype :=
    PyDict.get_default sensor_cfg "sensor_subtype" SensorSubType_PINHOLE in
  let channels :=
    if is_member sensor_type "SensorType" "COLOR" then VInt 4 else VInt 1 in
  if substring_in "fisheye" uuid then
    do position <- subscript sensor_cfg "position";
    do orientation <- subscript sensor_cfg "orientation";
    do height <- subscript settings "height";
    do width <- subscript settings "width";
    ret (create_fisheye_spec
           [ ("uuid", VStr uuid);
             ("position", position);
             ("orientation", orientation);
             ("resolution", VList [height; width]);
             ("sensor_type", sensor_type);
             ("channels", channels) ])
  else if substring_in "equirect" uuid then
    do position <- subscript sensor_cfg "position";
    do orientation <- subscript sensor_cfg "orientation";
    do height <- subscript settings "height";
    do width <- subscript settings "width";
    ret (create_equirect_spec
           [ ("uuid", VStr uuid);
             ("position", position);
             ("orientation", orientation);
             ("resolution", VList [height; width]);
             ("sensor_type", sensor_type);
             ("channels", channels) ])
  else
    do hfov <- subscript sensor_cfg "hfov";
    do position <- subscript sensor_cfg "position";
    do orientation <- subscript sensor_cfg "orientation";
    do height <- subscript settings "height";
    do width <- subscript settings "width";
    ret (create_camera_spec
           [ ("uuid", VStr uuid);
             ("hfov", hfov);
             ("position", position);
             ("orientation", orientation);
             ("resolution", VList [height; width]);
             ("sensor_type", sensor_type);
             ("sensor_subtype", sensor_subtype);
             ("channels", channels) ]).

(** The loop itself: [sensor_specs] grows by one spec per entry. *)
Fixpoint sensor_loop (settings : dict) (entries : dict) (sensor_specs : list obj)
  : M (list obj) :=
  match entries with
  | [] => ret sensor_specs
  | (uuid, sensor_cfg) :: entries' =>
      do spec <- sensor_spec settings uuid sensor_cfg;
      sensor_loop settings entries' (sensor_specs ++ [spec])
  end.

(** [if k in settings: sim_cfg.k = settings[k]] *)
Definition copy_if_present (settings : dict) (k : string) (o : obj) : obj :=
  match PyDict.get settings k with
  | Some v => setattr o k v
  | None => o
  end.

Definition action_table : list (string * ActionSpec) :=
  [ ("move_forward",
     {| name := "move_forward"; actuation := {| amount := VFloat (25 # 100) |} |});
    ("turn_left",
     {| name := "turn_left"; actuation := {| amount := VFloat (100 # 10) |} |});
    ("turn_right",
     {| name := "turn_right"; actuation := {| amount := VFloat (100 # 10) |} |}) ].

Definition version_mismatch : string :=
  "Error: Please upgrade habitat-sim. SimulatorConfig API version mismatch".

Definition make_cfg (settings : dict) : M Configuration :=
  let sim_cfg := new SimulatorConfiguration in
  let sim_cfg := copy_if_present settings "scene_dataset_config_file" sim_cfg in
  let sim_cfg :=
    setattr sim_cfg "frustum_culling"
            (PyDict.get_default settings "frustum_culling" (VBool false)) in
  let sim_cfg := copy_if_present settings "enable_physics" sim_cfg in
  let sim_cfg := copy_if_present settings "physics_config_file" sim_cfg in
  let sim_cfg := copy_if_present settings "scene_light_setup" sim_cfg in
  let sim_cfg := setattr sim_cfg "gpu_device_id" (VInt 0) in
  if negb (hasattr sim_cfg "scene_id") then raise (RuntimeError version_mismatch)
  else
    do scene <- subscript settings "scene";
    let sim_cfg := setattr sim_cfg "scene_id" scene in
    do sensors <- subscript settings "sensors";
    do entries <- items sensors;
    do sensor_specs <- sensor_loop settings entries [];
    let agent_cfg :=
      {| agent_attrs := agent_attrs agent_defaults;
         sensor_specifications := sensor_specs;
         action_space := action_table |} in
    ret {| sim_cfg := sim_cfg; agents := [agent_cfg] |}.


(** ** Facts about dicts *)

Section DictFacts.

Implicit Types (d a b : dict) (k : string) (v : value).

Lemma get_None_not_key d k : PyDict.get d k = None <-> k ∉ d.*1.
Proof.
  induction d as [|[k' v'] d IH]; simpl.
  - split; [intros _; apply not_elem_of_nil | reflexivity].
  - destruct (String.eqb_spec k' k) as [->|Hne].
    + split; [discriminate | intros H; exfalso; apply H; left].
    + rewrite IH, not_elem_of_cons. split; [intros H; split; [congruence | exact H] | intros [_ H]; exact H].
Qed.

Lemma get_set_eq d k v : PyDict.get (PyDict.set d k v) k = Some v.
Proof.
  induction d as [|[k' v'] d IH]; simpl.
  - rewrite String.eqb_refl. reflexivity.
  - destruct (String.eqb_spec k' k) as [->|Hne]; simpl.
    + rewrite String.eqb_refl. reflexivity.
    + destruct (String.eqb_spec k' k); [contradiction | exact IH].
Qed.

Lemma get_set_ne d k k' v : k <> k' -> PyDict.get (PyDict.set d k v) k' = PyDict.get d k'.
Proof.
  intros Hne. induction d as [|[k0 v0] d IH]; simpl.
  - destruct (String.eqb_spec k k'); [contradiction | reflexivity].
  - destruct (String.eqb_spec k0 k) as [->|Hk0]; simpl.
    + destruct (String.eqb_spec k k'); [contradiction | reflexivity].
    + rewrite IH. reflexivity.
Qed.

(** A lookup in [{**a, **b}] finds the entry of [b], else that of [a]. *)
Lemma get_merge a b k :
  PyDict.wf b ->
  PyDict.get (PyDict.merge a b) k =
    match PyDict.get b k with Some v => Some v | None => PyDict.get a k end.
Proof.
  unfold PyDict.wf, PyDict.merge. revert a.
  induction b as [|[k0 v0] b IH]; intros a Hwf; simpl; [reflexivity|].
  simpl in Hwf. apply NoDup_cons in Hwf as [Hfresh Hwf].
  rewrite (IH _ Hwf).
  destruct (String.eqb_spec k0 k) as [->|Hne].
  - apply get_None_not_key in Hfresh. rewrite Hfresh. apply get_set_eq.
  - rewrite (get_set_ne _ _ _ _ Hne). reflexivity.
Qed.

(** Without a binding in [b], the lookup is that of [a]. *)
Lemma get_merge_absent a b k :
  PyDict.get b k = None -> PyDict.get (PyDict.merge a b) k = PyDict.get a k.
Proof.
  unfold PyDict.merge. revert a.
  induction b as [|[k0 v0] b IH]; intros a Hk; simpl in *; [reflexivity|].
  destruct (String.eqb_spec k0 k) as [->|Hne]; [discriminate|].
  rewrite (IH _ Hk). apply get_set_ne, Hne.
Qed.

Lemma merge_nil a : PyDict.merge a [] = a.
Proof. reflexivity. Qed.

End DictFacts.

(** ** Facts about strings *)

Lemma append_cons (c : Ascii.ascii) (s t : string) :
  String c s +:+ t = String c (s +:+ t).
Proof. reflexivity. Qed.

Lemma prefix_spec (s1 s2 : string) :
  String.prefix s1 s2 = true <-> exists post, s2 = s1 +:+ post.
Proof.
  revert s2. induction s1 as [|c s1 IH]; intros s2.
  - split; [intros _; exists s2; reflexivity | intros _; destruct s2; reflexivity].
  - destruct s2 as [|c' s2]; simpl.
    + split; [discriminate | intros [post H]; rewrite append_cons in H; discriminate].
    + destruct (Ascii.ascii_dec c c') as [->|Hne].
      * rewrite IH. split; intros [post H]; exists post; rewrite append_cons in *; congruence.
      * split; [discriminate | intros [post H]; rewrite append_cons in H; congruence].
Qed.

Lemma substring_in_spec (needle hay : string) :
  substring_in needle hay = true <-> Contains needle hay.
Proof.
  unfold Contains. induction hay as [|c hay IH]; cbn [substring_in].
  - rewrite orb_false_r, prefix_spec. split.
    + intros [post H]. exists "", post. exact H.
    + intros [pre [post H]]. destruct pre.
      * exists post. exact H.
      * rewrite append_cons in H. discriminate.
  - rewrite orb_true_iff, prefix_spec, IH. split.
    + intros [[post H] | [pre [post H]]].
      * exists "", post. exact H.
      * exists (String c pre), post. rewrite append_cons, H. reflexivity.
    + intros [pre [post H]]. destruct pre as [|c' pre].
      * left. exists post. exact H.
      * right. exists pre, post. rewrite append_cons in H. congruence.
Qed.

Lemma substring_in_false (needle hay : string) :
  substring_in needle hay = false <-> ~ Contains needle hay.
Proof.
  rewrite <- substring_in_spec. destruct (substring_in needle hay); split; congruence.
Qed.

Lemma is_member_spec (v : value) (enum member : string) :
  is_member v enum member = true <-> v = VEnum enum member.
Proof.
  destruct v; simpl; try (split; [discriminate | congruence]).
  rewrite andb_true_iff, !String.eqb_eq. split; [intros [-> ->]; reflexivity | intros H; injection H; auto].
Qed.

(** ** Facts about attribute stores *)

Lemma getattr_setattr_eq (o : obj) (k : string) (v : value) :
  getattr (setattr o k v) k = Some v.
Proof. unfold getattr, setattr; simpl. apply lookup_insert_eq. Qed.

Lemma getattr_setattr_ne (o : obj) (k k' : string) (v : value) :
  k <> k' -> getattr (setattr o k v) k' = getattr o k'.
Proof. intros H. unfold getattr, setattr; simpl. apply lookup_insert_ne, H. Qed.

Lemma cls_setattrs (o : obj) (kw_args : dict) : cls (setattrs o kw_args) = cls o.
Proof.
  unfold setattrs. revert o. induction kw_args as [|[k v] kw IH]; intros o; simpl; [reflexivity|].
  rewrite IH. reflexivity.
Qed.

(** A keyword that is not passed leaves the attribute as it was. *)
Lemma getattr_setattrs_other (o : obj) (kw_args : dict) (k : string) :
  k ∉ kw_args.*1 -> getattr (setattrs o kw_args) k = getattr o k.
Proof.
  unfold setattrs. revert o. induction kw_args as [|[k0 v0] kw IH]; intros o Hk; simpl; [reflexivity|].
  simpl in Hk. apply not_elem_of_cons in Hk as [Hne Hk].
  rewrite (IH _ Hk). apply getattr_setattr_ne. congruence.
Qed.

(** ** Running the monad *)

Lemma bind_Ok {A B} (m : M A) (k : A -> M B) g b g' :
  bind m k g = (Ok b, g') -> exists a g1, m g = (Ok a, g1) /\ k a g1 = (Ok b, g').
Proof.
  unfold bind. destruct (m g) as [[a|e] g1]; intros H; [eauto | discriminate].
Qed.

Lemma subscript_Ok d k g v g' :
  subscript d k g = (Ok v, g') -> PyDict.get d k = Some v /\ g' = g.
Proof.
  unfold subscript. destruct (PyDict.get d k); unfold ret, raise; intros H;
    [injection H as <- <-; auto | discriminate].
Qed.

Lemma subscript_Some d k v g : PyDict.get d k = Some v -> subscript d k g = (Ok v, g).
Proof. unfold subscript. intros ->. reflexivity. Qed.

Lemma subscript_None d k g : PyDict.get d k = None -> subscript d k g = (Raise (KeyError k), g).
Proof. unfold subscript. intros ->. reflexivity. Qed.

Lemma preserves_ret {A} (a : A) : preserves_state (ret a).
Proof. intros g. reflexivity. Qed.

Lemma preserves_raise {A} (e : exn) : preserves_state (@raise A e).
Proof. intros g. reflexivity. Qed.

Lemma preserves_read_global {A} (name : module_state -> A) : preserves_state (read_global name).
Proof. intros g. reflexivity. Qed.

Lemma preserves_bind {A B} (m : M A) (k : A -> M B) :
  preserves_state m -> (forall a, preserves_state (k a)) -> preserves_state (bind m k).
Proof.
  intros Hm Hk g. unfold bind. specialize (Hm g).
  destruct (m g) as [[a|e] g1]; simpl in *; subst g1; [apply Hk | reflexivity].
Qed.

Lemma preserves_subscript d k : preserves_state (subscript d k).
Proof. unfold subscript. destruct (PyDict.get d k); [apply preserves_ret | apply preserves_raise]. Qed.

Lemma preserves_items v : preserves_state (items v).
Proof. destruct v; first [apply preserves_ret | apply preserves_raise]. Qed.

Lemma preserves_unpack_over a v : preserves_state (unpack_over a v).
Proof. destruct v; first [apply preserves_ret | apply preserves_raise]. Qed.

Create HintDb pure_read.
#[local] Hint Resolve preserves_ret preserves_raise preserves_read_global
  preserves_subscript preserves_items preserves_unpack_over : pure_read.

Ltac pure_read :=
  repeat first
    [ apply preserves_bind; [solve [auto with pure_read] | intros ?]
    | solve [auto with pure_read]
    | match goal with |- preserves_state (if ?b then _ else _) => destruct b end ].

Lemma sensor_spec_preserves settings uuid sensor_cfg :
  preserves_state (sensor_spec settings uuid sensor_cfg).
Proof. unfold sensor_spec. pure_read. Qed.

Lemma sensor_loop_preserves settings entries sensor_specs :
  preserves_state (sensor_loop settings entries sensor_specs).
Proof.
  revert sensor_specs. induction entries as [|[uuid sensor_cfg] entries IH]; intros acc; simpl.
  - apply preserves_ret.
  - apply preserves_bind; [apply sensor_spec_preserves | intros spec; apply IH].
Qed.

Lemma make_cfg_preserves settings : preserves_state (make_cfg settings).
Proof.
  unfold make_cfg. cbv zeta.
  match goal with |- preserves_state (if ?b then _ else _) => destruct b end;
    [apply preserves_raise|].
  repeat (apply preserves_bind; [solve [auto with pure_read] | intros ?]).
  apply preserves_bind; [apply sensor_loop_preserves | intros ?; apply preserves_ret].
Qed.

(** ** What a successful run went through *)

Ltac inv_run :=
  repeat match goal with
    | H : bind _ _ _ = (Ok _, _) |- _ =>
        let a := fresh "a" in let g1 := fresh "g" in let Hm := fresh "Hm" in
        apply bind_Ok in H as (a & g1 & Hm & H)
    | H : subscript _ _ _ = (Ok _, _) |- _ =>
        let Hget := fresh "Hget" in apply subscript_Ok in H as [Hget ->]
    | H : read_global _ _ = (Ok _, _) |- _ => unfold read_global in H; injection H as <- <-
    | H : ret _ _ = (Ok _, _) |- _ => unfold ret in H; injection H as <- <-
    | H : raise _ _ = (Ok _, _) |- _ => discriminate H
    end.

Lemma sensor_spec_Ok settings uuid v g spec g' :
  sensor_spec settings uuid v g = (Ok spec, g') ->
  g' = g /\
  exists scfg position orientation height width,
    v = VDict scfg /\
    let eff := PyDict.merge (default_sensor_settings g) scfg in
    let sensor_type := PyDict.get_default eff "sensor_type" SensorType_COLOR in
    let sensor_subtype := PyDict.get_default eff "sensor_subtype" SensorSubType_PINHOLE in
    let channels := if is_member sensor_type "SensorType" "COLOR" then VInt 4 else VInt 1 in
    PyDict.get eff "position" = Some position /\
    PyDict.get eff "orientation" = Some orientation /\
    PyDict.get settings "height" = Some height /\
    PyDict.get settings "width" = Some width /\
    ( (substring_in "fisheye" uuid = true /\
       spec = create_fisheye_spec
                [ ("uuid", VStr uuid); ("position", position);
                  ("orientation", orientation);
                  ("resolution", VList [height; width]);
                  ("sensor_type", sensor_type); ("channels", channels) ])
    \/ (substring_in "fisheye" uuid = false /\ substring_in "equirect" uuid = true /\
       spec = create_equirect_spec
                [ ("uuid", VStr uuid); ("position", position);
                  ("orientation", orientation);
                  ("resolution", VList [height; width]);
                  ("sensor_type", sensor_type); ("channels", channels) ])
    \/ (substring_in "fisheye" uuid = false /\ substring_in "equirect" uuid = false /\
       exists hfov,
         PyDict.get eff "hfov" = Some hfov /\
         spec = create_camera_spec
                  [ ("uuid", VStr uuid); ("hfov", hfov); ("position", position);
                    ("orientation", orientation);
                    ("resolution", VList [height; width]);
                    ("sensor_type", sensor_type); ("sensor_subtype", sensor_subtype);
                    ("channels", channels) ]) ).
Proof.
  unfold sensor_spec. intros H.
  apply bind_Ok in H as (defaults & g1 & Hd & H). unfold read_global in Hd.
  injection Hd as <- <-.
  apply bind_Ok in H as (eff & g1 & Hu & H).
  destruct v as [| | | | | |xs|scfg]; try discriminate Hu.
  unfold unpack_over, ret in Hu. injection Hu as <- <-.
  destruct (substring_in "fisheye" uuid) eqn:Hf;
    [|destruct (substring_in "equirect" uuid) eqn:He]; inv_run;
    (split; [reflexivity|]); eexists scfg, _, _, _, _; cbv zeta;
    (repeat (split; [eassumption || reflexivity|])).
  - left. split; reflexivity.
  - right. left. repeat split; reflexivity.
  - right. right. repeat (split; [reflexivity|]). eexists. split; [eassumption | reflexivity].
Qed.

Lemma sensor_loop_Ok settings entries acc g specs g' :
  sensor_loop settings entries acc g = (Ok specs, g') ->
  g' = g /\
  exists fresh_specs,
    specs = (acc ++ fresh_specs)%list /\
    Forall2 (fun e spec => sensor_spec settings e.1 e.2 g = (Ok spec, g))
            entries fresh_specs.
Proof.
  revert acc g. induction entries as [|[uuid sensor_cfg] entries IH]; intros acc g H; simpl in H.
  - unfold ret in H. injection H as <- <-. split; [reflexivity|].
    exists []. rewrite app_nil_r. split; [reflexivity | constructor].
  - apply bind_Ok in H as (spec & g1 & Hs & H).
    pose proof (sensor_spec_preserves settings uuid sensor_cfg g) as Hg.
    rewrite Hs in Hg. simpl in Hg. subst g1.
    apply IH in H as [-> (rest & -> & Hall)]. split; [reflexivity|].
    exists (spec :: rest). rewrite <- app_assoc. split; [reflexivity|].
    constructor; [exact Hs | exact Hall].
Qed.

Lemma make_cfg_Ok settings g cfg g' :
  make_cfg settings g = (Ok cfg, g') ->
  g' = g /\
  exists scene entries,
    PyDict.get settings "scene" = Some scene /\
    PyDict.get settings "sensors" = Some (VDict entries) /\
    Forall2 (fun e spec => sensor_spec settings e.1 e.2 g = (Ok spec, g))
            entries (sensor_specifications_of cfg) /\
    agents cfg =
      [ {| agent_attrs := agent_attrs agent_defaults;
           sensor_specifications := sensor_specifications_of cfg;
           action_space := action_table |} ] /\
    sim_cfg cfg =
      setattr
        (setattr
           (copy_if_present settings "scene_light_setup"
              (copy_if_present settings "physics_config_file"
                 (copy_if_present settings "enable_physics"
                    (setattr
                       (copy_if_present settings "scene_dataset_config_file"
                          (new SimulatorConfiguration))
                       "frustum_culling"
                       (PyDict.get_default settings "frustum_culling" (VBool false))))))
           "gpu_device_id" (VInt 0))
        "scene_id" scene.
Proof.
  unfold make_cfg. cbv zeta. intros H.
  match type of H with (if ?b then _ else _) _ = _ => destruct b; [discriminate H|] end.
  inv_run.
  match goal with H : items ?v _ = _ |- _ => destruct v; try discriminate H;
    unfold items, ret in H; injection H as <- <- end.
  match goal with H : sensor_loop _ _ _ _ = _ |- _ =>
    apply sensor_loop_Ok in H as [-> (specs & -> & Hall)] end.
  split; [reflexivity|]. eexists _, _.
  unfold sensor_specifications_of. simpl. rewrite app_nil_r.
  split; [eassumption|]. split; [eassumption|]. split; [exact Hall|].
  split; reflexivity.
Qed.

(** ** Reading attributes off the built objects *)

Lemma getattr_copy_if_present_eq settings k o :
  getattr (copy_if_present settings k o) k =
    match PyDict.get settings k with Some v => Some v | None => getattr o k end.
Proof.
  unfold copy_if_present. destruct (PyDict.get settings k); [apply getattr_setattr_eq | reflexivity].
Qed.

Lemma getattr_copy_if_present_ne settings k o k' :
  k <> k' -> getattr (copy_if_present settings k o) k' = getattr o k'.
Proof.
  intros Hne. unfold copy_if_present.
  destruct (PyDict.get settings k); [apply getattr_setattr_ne, Hne | reflexivity].
Qed.

Ltac attr_simpl :=
  unfold create_camera_spec, create_fisheye_spec, create_equirect_spec, setattrs;
  cbn [fold_left fst snd];
  repeat first
    [ rewrite getattr_setattr_eq
    | rewrite getattr_setattr_ne by discriminate
    | rewrite getattr_copy_if_present_eq
    | rewrite getattr_copy_if_present_ne by discriminate ].

(** Lines 35-44 never assign [scene_id], so the probe of line 45 sees what the
    constructor left. *)
Lemma hasattr_scene_id_probe settings :
  hasattr
    (setattr
       (copy_if_present settings "scene_light_setup"
          (copy_if_present settings "physics_config_file"
             (copy_if_present settings "enable_physics"
                (setattr
                   (copy_if_present settings "scene_dataset_config_file"
                      (new SimulatorConfiguration))
                   "frustum_culling"
                   (PyDict.get_default settings "frustum_culling" (VBool false))))))
       "gpu_device_id" (VInt 0))
    "scene_id"
  = hasattr (new SimulatorConfiguration) "scene_id".
Proof. unfold hasattr. attr_simpl. reflexivity. Qed.

Lemma sensor_spec_uuid settings uuid v g spec g' :
  sensor_spec settings uuid v g = (Ok spec, g') -> getattr spec "uuid" = Some (VStr uuid).
Proof.
  intros H. apply sensor_spec_Ok in H as [_ (scfg & pos & ori & h & w & _ & H)].
  cbv zeta in H. destruct H as (_ & _ & _ & _ & [[_ ->] | [(_ & _ & ->) | (_ & _ & hfov & _ & ->)]]);
    attr_simpl; reflexivity.
Qed.

Lemma sensor_specs_uuids settings g (entries : dict) (specs : list obj) :
  Forall2 (fun e spec => sensor_spec settings e.1 e.2 g = (Ok spec, g)) entries specs ->
  map (fun spec => getattr spec "uuid") specs = map (fun e => Some (VStr e.1)) entries.
Proof.
  induction 1 as [|e spec entries' specs' He _ IH]; simpl; [reflexivity|].
  rewrite (sensor_spec_uuid _ _ _ _ _ _ He), IH. reflexivity.
Qed.

(** ** The simulator configuration and the agent *)

(** C1: when the settings have no ["scene"] key, [make_cfg] raises and returns
    no configuration: on an engine whose simulator configuration exposes
    [scene_id] the exception is the missing-key error [KeyError "scene"] of line
    49, and otherwise the version-mismatch [RuntimeError] of line 46. The module
    state is left as it was. *)
Theorem make_cfg_missing_scene settings g :
  PyDict.get settings "scene" = None ->
  make_cfg settings g =
    (Raise (if hasattr (new SimulatorConfiguration) "scene_id"
            then KeyError "scene"
            else RuntimeError version_mismatch), g).
Proof.
  intros Hscene. unfold make_cfg. cbv zeta. rewrite hasattr_scene_id_probe.
  destruct (hasattr (new SimulatorConfiguration) "scene_id"); simpl; [|reflexivity].
  unfold bind. rewrite (subscript_None _ _ _ Hscene). reflexivity.
Qed.

(** C6: in the simulator configuration of a successful run, each of
    [scene_dataset_config_file], [physics_config_file], [scene_light_setup] and
    [enable_physics] holds the settings' value when the key is present and the
    value the engine's constructor left otherwise; [frustum_culling] is always
    assigned, [False] when the key is absent; [gpu_device_id] is [0] whatever
    the settings say. *)
Theorem sim_cfg_fields settings g cfg g' :
  make_cfg settings g = (Ok cfg, g') ->
  (forall k,
     k ∈ ["scene_dataset_config_file"; "physics_config_file";
          "scene_light_setup"; "enable_physics"] ->
     getattr (sim_cfg cfg) k =
       match PyDict.get settings k with
       | Some v => Some v
       | None => engine_defaults SimulatorConfiguration !! k
       end) /\
  getattr (sim_cfg cfg) "frustum_culling" =
    Some (match PyDict.get settings "frustum_culling" with
          | Some v => v
          | None => VBool false
          end) /\
  getattr (sim_cfg cfg) "gpu_device_id" = Some (VInt 0).
Proof.
  intros H. apply make_cfg_Ok in H as [_ (scene & entries & _ & _ & _ & _ & ->)].
  split; [|split].
  - intros k Hk. repeat (apply elem_of_cons in Hk as [-> | Hk]);
      [attr_simpl; reflexivity .. | apply elem_of_nil in Hk; contradiction].
  - attr_simpl. reflexivity.
  - attr_simpl. reflexivity.
Qed.

(** C7: a successful run returns exactly one agent; its sensor list is the list
    of the specs built for the entries of [settings["sensors"]], one per entry
    and in their order, and its action table is the three hardcoded actions
    [move_forward] (0.25), [turn_left] (10.0) and [turn_right] (10.0). *)
Theorem single_agent_fixed_actions settings g cfg g' :
  make_cfg settings g = (Ok cfg, g') ->
  exists agent entries,
    agents cfg = [agent] /\
    PyDict.get settings "sensors" = Some (VDict entries) /\
    Forall2 (fun e spec => sensor_spec settings e.1 e.2 g = (Ok spec, g))
            entries (sensor_specifications agent) /\
    map (fun spec => getattr spec "uuid") (sensor_specifications agent) =
      map (fun e => Some (VStr e.1)) entries /\
    action_space agent =
      [ ("move_forward",
         {| name := "move_forward"; actuation := {| amount := VFloat (25 # 100) |} |});
        ("turn_left",
         {| name := "turn_left"; actuation := {| amount := VFloat (100 # 10) |} |});
        ("turn_right",
         {| name := "turn_right"; actuation := {| amount := VFloat (100 # 10) |} |}) ].
Proof.
  intros H. apply make_cfg_Ok in H as [_ (scene & entries & _ & Hs & Hall & Hag & _)].
  exists {| agent_attrs := agent_attrs agent_defaults;
            sensor_specifications := sensor_specifications_of cfg;
            action_space := action_table |}, entries.
  split; [exact Hag|]. simpl.
  split; [exact Hs|]. split; [exact Hall|]. split; [|reflexivity].
  apply (sensor_specs_uuids _ _ _ _ Hall).
Qed.

(** C9: [make_cfg] is deterministic and writes nothing: run twice in a row on
    the same settings, the second run returns what the first returned (the same
    configuration or the same exception), and the module state after each run is
    the state before it. *)
Theorem make_cfg_deterministic settings g :
  (make_cfg settings (make_cfg settings g).2).1 = (make_cfg settings g).1 /\
  (make_cfg settings g).2 = g /\
  (make_cfg settings (make_cfg settings g).2).2 = g.
Proof.
  pose proof (make_cfg_preserves settings g) as Hg.
  rewrite Hg. split; [reflexivity|]. split; [reflexivity | exact Hg].
Qed.

(** ** The sensor specs *)

(** What holds of every spec that an iteration builds holds of every spec of
    the returned configuration, entry by entry. *)
Lemma make_cfg_each_sensor (P : string * value -> obj -> Prop) settings g cfg g' :
  (forall e spec, sensor_spec settings e.1 e.2 g = (Ok spec, g) -> P e spec) ->
  make_cfg settings g = (Ok cfg, g') ->
  exists entries,
    PyDict.get settings "sensors" = Some (VDict entries) /\
    Forall2 P entries (sensor_specifications_of cfg).
Proof.
  intros HP H. apply make_cfg_Ok in H as [_ (scene & entries & _ & Hs & Hall & _)].
  exists entries. split; [exact Hs|].
  eapply Forall2_impl; [exact Hall | exact HP].
Qed.

Lemma sensor_spec_cls settings uuid v g spec g' :
  sensor_spec settings uuid v g = (Ok spec, g') ->
  cls spec =
    if substring_in "fisheye" uuid then FisheyeSensorDoubleSphereSpec
    else if substring_in "equirect" uuid then EquirectangularSensorSpec
    else CameraSensorSpec.
Proof.
  intros H. apply sensor_spec_Ok in H as [_ (scfg & pos & ori & h & w & _ & H)].
  cbv zeta in H.
  destruct H as (_ & _ & _ & _ & [[Hf ->] | [(Hf & He & ->) | (Hf & He & hfov & _ & ->)]]);
    rewrite Hf, ?He;
    unfold create_fisheye_spec, create_equirect_spec, create_camera_spec;
    rewrite cls_setattrs; reflexivity.
Qed.

Lemma sensor_spec_resolution settings uuid v g spec g' :
  sensor_spec settings uuid v g = (Ok spec, g') ->
  exists height width,
    PyDict.get settings "height" = Some height /\
    PyDict.get settings "width" = Some width /\
    getattr spec "resolution" = Some (VList [height; width]).
Proof.
  intros H. apply sensor_spec_Ok in H as [_ (scfg & pos & ori & h & w & _ & H)].
  cbv zeta in H. destruct H as (_ & _ & Hh & Hw & Hspec).
  exists h, w. split; [exact Hh|]. split; [exact Hw|].
  destruct Hspec as [[_ ->] | [(_ & _ & ->) | (_ & _ & hfov & _ & ->)]];
    attr_simpl; reflexivity.
Qed.

Lemma sensor_spec_channels settings uuid v g spec g' :
  sensor_spec settings uuid v g = (Ok spec, g') ->
  exists scfg,
    v = VDict scfg /\
    let sensor_type :=
      PyDict.get_default (PyDict.merge (default_sensor_settings g) scfg)
                         "sensor_type" SensorType_COLOR in
    getattr spec "sensor_type" = Some sensor_type /\
    getattr spec "channels" =
      Some (if is_member sensor_type "SensorType" "COLOR" then VInt 4 else VInt 1).
Proof.
  intros H. apply sensor_spec_Ok in H as [_ (scfg & pos & ori & h & w & -> & H)].
  cbv zeta in H. exists scfg. split; [reflexivity|]. cbv zeta.
  destruct H as (_ & _ & _ & _ & [[_ ->] | [(_ & _ & ->) | (_ & _ & hfov & _ & ->)]]);
    attr_simpl; split; reflexivity.
Qed.

(** C3: the class of each spec follows from the sensor identifier alone: a
    fisheye (double-sphere) spec when the identifier contains ["fisheye"], else
    an equirectangular spec when it contains ["equirect"], else a pinhole camera
    spec. Two entries with the same identifier get the same class whatever
    their settings are. *)
Theorem sensor_kind_by_identifier :
  (forall settings g cfg g',
     make_cfg settings g = (Ok cfg, g') ->
     exists entries,
       PyDict.get settings "sensors" = Some (VDict entries) /\
       Forall2
         (fun e spec =>
            (Contains "fisheye" e.1 -> cls spec = FisheyeSensorDoubleSphereSpec) /\
            (~ Contains "fisheye" e.1 -> Contains "equirect" e.1 ->
             cls spec = EquirectangularSensorSpec) /\
            (~ Contains "fisheye" e.1 -> ~ Contains "equirect" e.1 ->
             cls spec = CameraSensorSpec))
         entries (sensor_specifications_of cfg)) /\
  (forall uuid settings1 v1 g1 spec1 g1' settings2 v2 g2 spec2 g2',
     sensor_spec settings1 uuid v1 g1 = (Ok spec1, g1') ->
     sensor_spec settings2 uuid v2 g2 = (Ok spec2, g2') ->
     cls spec1 = cls spec2).
Proof.
  split.
  - intros settings g cfg g'. apply make_cfg_each_sensor.
    intros [uuid v] spec H. simpl in *. apply sensor_spec_cls in H. rewrite H.
    destruct (substring_in "fisheye" uuid) eqn:Hf;
      [apply substring_in_spec in Hf | apply substring_in_false in Hf];
      (destruct (substring_in "equirect" uuid) eqn:He;
       [apply substring_in_spec in He | apply substring_in_false in He]);
      repeat split; intros; solve [reflexivity | contradiction].
  - intros uuid s1 v1 g1 spec1 g1' s2 v2 g2 spec2 g2' H1 H2.
    apply sensor_spec_cls in H1, H2. congruence.
Qed.

(** C4: a successful run builds one spec per entry of [settings["sensors"]],
    and every one of them has the resolution
    [[settings["height"], settings["width"]]]: the frame size is read from the
    top-level settings only, never from a sensor's own settings. *)
Theorem shared_resolution settings g cfg g' :
  make_cfg settings g = (Ok cfg, g') ->
  exists entries,
    PyDict.get settings "sensors" = Some (VDict entries) /\
    length (sensor_specifications_of cfg) = length entries /\
    forall spec,
      spec ∈ sensor_specifications_of cfg ->
      exists height width,
        PyDict.get settings "height" = Some height /\
        PyDict.get settings "width" = Some width /\
        getattr spec "resolution" = Some (VList [height; width]).
Proof.
  intros H. apply make_cfg_Ok in H as [_ (scene & entries & _ & Hs & Hall & _)].
  exists entries. split; [exact Hs|]. split.
  - symmetry. eapply Forall2_length, Hall.
  - intros spec Hin. clear Hs.
    induction Hall as [|e spec0 entries' specs' He _ IH]; [apply elem_of_nil in Hin; contradiction|].
    apply elem_of_cons in Hin as [-> | Hin]; [|apply IH, Hin].
    eapply sensor_spec_resolution, He.
Qed.

(** C5: the [channels] of each spec is 4 exactly when the effective
    [sensor_type] (the sensor's own setting, else the template's, else COLOR) is
    [SensorType.COLOR], and 1 for every other value; a sensor that names no
    [sensor_type] under a template that names none gets COLOR and 4. *)
Theorem channels_by_sensor_type settings g cfg g' :
  make_cfg settings g = (Ok cfg, g') ->
  exists entries,
    PyDict.get settings "sensors" = Some (VDict entries) /\
    Forall2
      (fun e spec =>
         exists scfg,
           e.2 = VDict scfg /\
           let sensor_type :=
             PyDict.get_default (PyDict.merge (default_sensor_settings g) scfg)
                                "sensor_type" SensorType_COLOR in
           getattr spec "sensor_type" = Some sensor_type /\
           (sensor_type = SensorType_COLOR -> getattr spec "channels" = Some (VInt 4)) /\
           (sensor_type <> SensorType_COLOR -> getattr spec "channels" = Some (VInt 1)) /\
           (PyDict.get scfg "sensor_type" = None ->
            PyDict.get (default_sensor_settings g) "sensor_type" = None ->
            sensor_type = SensorType_COLOR) /\
           (PyDict.wf scfg ->
            forall v, PyDict.get scfg "sensor_type" = Some v -> sensor_type = v))
      entries (sensor_specifications_of cfg).
Proof.
  apply make_cfg_each_sensor. intros [uuid v] spec H. simpl in *.
  apply sensor_spec_channels in H as (scfg & -> & Hty & Hch). cbv zeta in *.
  exists scfg. split; [reflexivity|]. split; [exact Hty|].
  rewrite Hch. clear Hty Hch.
  set (eff := PyDict.merge (default_sensor_settings g) scfg).
  repeat split.
  - intros Hc. apply is_member_spec in Hc. rewrite Hc. reflexivity.
  - intros Hc. destruct (is_member _ _ _) eqn:Hm; [|reflexivity].
    apply is_member_spec in Hm. contradiction.
  - intros Hnone Hdef. unfold PyDict.get_default, eff.
    rewrite (get_merge_absent _ _ _ Hnone), Hdef. reflexivity.
  - intros Hwf v Hv. unfold PyDict.get_default, eff.
    rewrite (get_merge _ _ _ Hwf), Hv. reflexivity.
Qed.

Lemma sensor_spec_placement settings uuid v g spec g' :
  sensor_spec settings uuid v g = (Ok spec, g') ->
  exists scfg,
    v = VDict scfg /\
    let eff := PyDict.merge (default_sensor_settings g) scfg in
    getattr spec "position" = PyDict.get eff "position" /\
    getattr spec "orientation" = PyDict.get eff "orientation" /\
    (substring_in "fisheye" uuid = false -> substring_in "equirect" uuid = false ->
     getattr spec "hfov" = PyDict.get eff "hfov") /\
    (substring_in "fisheye" uuid = true \/ substring_in "equirect" uuid = true ->
     getattr spec "hfov" = engine_defaults (cls spec) !! "hfov").
Proof.
  intros H. apply sensor_spec_Ok in H as [_ (scfg & pos & ori & h & w & -> & H)].
  cbv zeta in H. exists scfg. split; [reflexivity|]. cbv zeta.
  destruct H as (Hpos & Hori & _ & _ &
                 [[Hf ->] | [(Hf & He & ->) | (Hf & He & hfov & Hhfov & ->)]]);
    rewrite Hpos, Hori, ?Hhfov.
  - repeat split; try (attr_simpl; reflexivity). congruence.
  - repeat split; try (attr_simpl; reflexivity). congruence.
  - repeat split; try (attr_simpl; reflexivity).
    intros [Hc | Hc]; congruence.
Qed.

(** C2 (as amended): the effective settings of a sensor are the template
    [default_sensor_settings] with every key of the sensor's own settings
    overriding it; empty per-sensor settings give exactly the template (hfov 90,
    position [0, 1.5, 0], orientation [0, 0, 0]); position and orientation of
    every spec are the effective ones; the spec of a pinhole sensor (identifier
    with neither ["fisheye"] nor ["equirect"]) has the effective [hfov], so a
    supplied [hfov] wins over 90, while the spec of a fisheye or equirectangular
    sensor is never assigned an [hfov]. *)
Theorem effective_sensor_settings settings cfg g' :
  make_cfg settings module_init = (Ok cfg, g') ->
  exists entries,
    PyDict.get settings "sensors" = Some (VDict entries) /\
    Forall2
      (fun e spec =>
         exists scfg,
           e.2 = VDict scfg /\
           let eff := PyDict.merge (default_sensor_settings module_init) scfg in
           (PyDict.wf scfg ->
            forall k,
              PyDict.get eff k =
                match PyDict.get scfg k with
                | Some v => Some v
                | None => PyDict.get (default_sensor_settings module_init) k
                end) /\
           (scfg = [] ->
            eff = [ ("hfov", VInt 90);
                    ("position", VList [VInt 0; VFloat (15 # 10); VInt 0]);
                    ("orientation", VList [VInt 0; VInt 0; VInt 0]) ]) /\
           getattr spec "position" = PyDict.get eff "position" /\
           getattr spec "orientation" = PyDict.get eff "orientation" /\
           (~ Contains "fisheye" e.1 -> ~ Contains "equirect" e.1 ->
            getattr spec "hfov" = PyDict.get eff "hfov" /\
            (PyDict.wf scfg ->
             forall v, PyDict.get scfg "hfov" = Some v -> getattr spec "hfov" = Some v) /\
            (PyDict.get scfg "hfov" = None -> getattr spec "hfov" = Some (VInt 90))) /\
           (Contains "fisheye" e.1 \/ Contains "equirect" e.1 ->
            getattr spec "hfov" = engine_defaults (cls spec) !! "hfov"))
      entries (sensor_specifications_of cfg).
Proof.
  apply make_cfg_each_sensor. intros [uuid v] spec H. simpl in *.
  apply sensor_spec_placement in H as (scfg & -> & Hpos & Hori & Hcam & Hother).
  exists scfg. split; [reflexivity|]. cbv zeta.
  split; [intros Hwf k; apply get_merge, Hwf|].
  split; [intros ->; reflexivity|].
  split; [exact Hpos|]. split; [exact Hori|]. split.
  - intros Hf He. apply substring_in_false in Hf, He.
    rewrite (Hcam Hf He). split; [reflexivity|]. split.
    + intros Hwf v Hv. rewrite (get_merge _ _ _ Hwf), Hv. reflexivity.
    + intros Hnone. rewrite (get_merge_absent _ _ _ Hnone). reflexivity.
  - intros Hc. apply Hother. rewrite !substring_in_spec. exact Hc.
Qed.

Lemma sensor_spec_fisheye settings uuid v g spec g' :
  sensor_spec settings uuid v g = (Ok spec, g') ->
  substring_in "fisheye" uuid = true ->
  getattr spec "sensor_model_type" = Some FisheyeSensorModelType_DOUBLE_SPHERE /\
  getattr spec "xi" = Some (VFloat (-27 # 100)) /\
  getattr spec "alpha" = Some (VFloat (57 # 100)) /\
  getattr spec "focal_length" = Some (VList [VFloat (36484 # 100); VFloat (36486 # 100)]) /\
  getattr spec "principal_point_offset" = Some VNone.
Proof.
  intros H Hfish. apply sensor_spec_Ok in H as [_ (scfg & pos & ori & h & w & _ & H)].
  cbv zeta in H.
  destruct H as (_ & _ & _ & _ & [[_ ->] | [(Hf & _) | (Hf & _)]]); [|congruence..].
  repeat split; attr_simpl; reflexivity.
Qed.

(** A lookup in [{**a, **b}] at [k'] depends on [a] through its lookup at [k']
    only, and is not changed by setting another key of [b]. *)
Lemma get_merge_cong (a1 a2 b : dict) (k' : string) :
  PyDict.get a1 k' = PyDict.get a2 k' ->
  PyDict.get (PyDict.merge a1 b) k' = PyDict.get (PyDict.merge a2 b) k'.
Proof.
  unfold PyDict.merge. revert a1 a2.
  induction b as [|[k0 v0] b IH]; intros a1 a2 Ha; simpl; [exact Ha|].
  apply IH. destruct (String.eqb_spec k0 k') as [->|Hne].
  - rewrite !get_set_eq. reflexivity.
  - rewrite !(get_set_ne _ _ _ _ Hne). exact Ha.
Qed.

Lemma get_merge_set_ne (a b : dict) (k k' : string) (v : value) :
  k <> k' ->
  PyDict.get (PyDict.merge a (PyDict.set b k v)) k' = PyDict.get (PyDict.merge a b) k'.
Proof.
  intros Hne. revert a. induction b as [|[k0 v0] b IH]; intros a.
  - unfold PyDict.merge. simpl. apply get_set_ne, Hne.
  - simpl. destruct (String.eqb_spec k0 k) as [->|Hk0].
    + unfold PyDict.merge. simpl.
      apply (get_merge_cong (PyDict.set a k v) (PyDict.set a k v0) b k').
      rewrite !(get_set_ne _ _ _ _ Hne). reflexivity.
    + unfold PyDict.merge. simpl. apply (IH (PyDict.set a k0 v0)).
Qed.

(** C8 (as amended): the spec of every sensor whose identifier contains
    ["fisheye"] carries the double-sphere constants xi = -0.27, alpha = 0.57,
    focal length [364.84, 364.86] and a principal-point offset of [None],
    whatever the sensor's own settings hold: the call site of
    [create_fisheye_spec] passes none of these four fields, so setting one of
    them in the sensor's settings changes nothing in what the iteration
    returns. *)
Theorem fisheye_lens_constants :
  (forall settings g cfg g',
     make_cfg settings g = (Ok cfg, g') ->
     exists entries,
       PyDict.get settings "sensors" = Some (VDict entries) /\
       Forall2
         (fun e spec =>
            Contains "fisheye" e.1 ->
            getattr spec "xi" = Some (VFloat (-27 # 100)) /\
            getattr spec "alpha" = Some (VFloat (57 # 100)) /\
            getattr spec "focal_length" =
              Some (VList [VFloat (36484 # 100); VFloat (36486 # 100)]) /\
            getattr spec "principal_point_offset" = Some VNone)
         entries (sensor_specifications_of cfg)) /\
  (forall settings uuid scfg k v g,
     Contains "fisheye" uuid ->
     k ∈ ["xi"; "alpha"; "focal_length"; "principal_point_offset"] ->
     sensor_spec settings uuid (VDict (PyDict.set scfg k v)) g =
       sensor_spec settings uuid (VDict scfg) g).
Proof.
  split.
  - intros settings g cfg g'. apply make_cfg_each_sensor.
    intros [uuid v] spec H Hc. simpl in *. apply substring_in_spec in Hc.
    destruct (sensor_spec_fisheye _ _ _ _ _ _ H Hc) as (_ & Hxi & Ha & Hfl & Hp).
    repeat split; assumption.
  - intros settings uuid scfg k v g Hc Hk. apply substring_in_spec in Hc.
    assert (Heff : forall k', k <> k' ->
              PyDict.get (PyDict.merge (default_sensor_settings g) (PyDict.set scfg k v)) k' =
              PyDict.get (PyDict.merge (default_sensor_settings g) scfg) k')
      by (intros k' Hne; apply get_merge_set_ne, Hne).
    assert (Hpos : k <> "position" /\ k <> "orientation" /\ k <> "sensor_type").
    { repeat (apply elem_of_cons in Hk as [-> | Hk]; [repeat split; discriminate|]).
      apply elem_of_nil in Hk. contradiction. }
    destruct Hpos as (Hp & Ho & Ht).
    unfold sensor_spec, bind at 1, read_global. unfold bind at 1, unpack_over, ret.
    unfold bind at 1, read_global. unfold bind at 1.
    rewrite Hc. unfold PyDict.get_default, subscript.
    rewrite (Heff _ Hp), (Heff _ Ho), (Heff _ Ht). reflexivity.
Qed.

(** ** The module-level tables *)

Lemma same_result_bind {A B} (m : M A) (k : A -> M B) :
  preserves_state m -> same_result m -> (forall a, same_result (k a)) ->
  same_result (bind m k).
Proof.
  intros Hp Hm Hk g1 g2 Hg. unfold bind.
  pose proof (Hm g1 g2 Hg) as Hr. pose proof (Hp g1) as H1. pose proof (Hp g2) as H2.
  destruct (m g1) as [r1 g1'], (m g2) as [r2 g2']. simpl in *. subst.
  destruct r2 as [a|e]; [apply Hk, Hg | reflexivity].
Qed.

Lemma same_result_const {A} (m : M A) (r : result A) :
  (forall g, m g = (r, g)) -> same_result m.
Proof. intros H g1 g2 _. rewrite !H. reflexivity. Qed.

Lemma same_result_subscript d k : same_result (subscript d k).
Proof.
  unfold subscript. destruct (PyDict.get d k);
    [eapply (same_result_const _ (Ok _)) | eapply (same_result_const _ (Raise _))];
    reflexivity.
Qed.

Lemma same_result_unpack_over a v : same_result (unpack_over a v).
Proof.
  destruct v;
    first [eapply (same_result_const _ (Ok _)); reflexivity
          | eapply (same_result_const _ (Raise _)); reflexivity].
Qed.

Lemma same_result_ret {A} (a : A) : same_result (ret a).
Proof. apply (same_result_const _ (Ok a)). reflexivity. Qed.

Ltac same_result :=
  repeat first
    [ apply same_result_bind;
        [apply preserves_subscript | apply same_result_subscript | intros ?]
    | apply same_result_ret
    | match goal with |- same_result (if ?b then _ else _) => destruct b end ].

Lemma sensor_spec_same_result settings uuid sensor_cfg :
  same_result (sensor_spec settings uuid sensor_cfg).
Proof.
  unfold sensor_spec.
  apply same_result_bind; [apply preserves_read_global | | intros defaults].
  - intros g1 g2 Hg. unfold read_global. simpl. rewrite Hg. reflexivity.
  - apply same_result_bind;
      [apply preserves_unpack_over | apply same_result_unpack_over | intros eff].
    same_result.
Qed.

Lemma sensor_loop_same_result settings entries sensor_specs :
  same_result (sensor_loop settings entries sensor_specs).
Proof.
  revert sensor_specs. induction entries as [|[uuid sensor_cfg] entries IH]; intros acc; simpl.
  - apply same_result_ret.
  - apply same_result_bind;
      [apply sensor_spec_preserves | apply sensor_spec_same_result | intros spec; apply IH].
Qed.

Lemma make_cfg_same_result settings : same_result (make_cfg settings).
Proof.
  unfold make_cfg. cbv zeta.
  match goal with |- same_result (if ?b then _ else _) => destruct b end;
    [eapply (same_result_const _ (Raise _)); reflexivity|].
  apply same_result_bind; [apply preserves_subscript | apply same_result_subscript | intros scene].
  apply same_result_bind; [apply preserves_subscript | apply same_result_subscript | intros sensors].
  apply same_result_bind; [apply preserves_items | | intros entries].
  - destruct sensors;
      first [eapply (same_result_const _ (Ok _)); reflexivity
            | eapply (same_result_const _ (Raise _)); reflexivity].
  - apply same_result_bind;
      [apply sensor_loop_preserves | apply sensor_loop_same_result | intros specs].
    apply same_result_ret.
Qed.

Lemma get_merge_is_Some a b k :
  is_Some (PyDict.get a k) -> is_Some (PyDict.get (PyDict.merge a b) k).
Proof.
  unfold PyDict.merge. revert a.
  induction b as [|[k0 v0] b IH]; intros a Ha; simpl; [exact Ha|].
  apply IH. destruct (String.eqb_spec k0 k) as [->|Hne].
  - rewrite get_set_eq. eauto.
  - rewrite (get_set_ne _ _ _ _ Hne). exact Ha.
Qed.

(** Under the module's template the sensor-level subscripts cannot fail, so
    the first subscript that can is [settings["height"]], then
    [settings["width"]]. *)
Lemma sensor_spec_frame_size settings uuid scfg :
  sensor_spec settings uuid (VDict scfg) module_init =
    match PyDict.get settings "height", PyDict.get settings "width" with
    | None, _ => (Raise (KeyError "height"), module_init)
    | Some _, None => (Raise (KeyError "width"), module_init)
    | Some height, Some width =>
        sensor_spec settings uuid (VDict scfg) module_init
    end.
Proof.
  destruct (PyDict.get settings "height") as [h|] eqn:Hh;
    [destruct (PyDict.get settings "width") as [w|] eqn:Hw; [reflexivity|]|].
  all: unfold sensor_spec, bind at 1, read_global; cbn [default_sensor_settings module_init];
    unfold bind at 1, unpack_over, ret;
    destruct (get_merge_is_Some (default_sensor_settings module_init) scfg "hfov"
                ltac:(simpl; eauto)) as [hfov Hhfov];
    destruct (get_merge_is_Some (default_sensor_settings module_init) scfg "position"
                ltac:(simpl; eauto)) as [pos Hpos];
    destruct (get_merge_is_Some (default_sensor_settings module_init) scfg "orientation"
                ltac:(simpl; eauto)) as [ori Hori];
    cbn [default_sensor_settings module_init] in Hhfov, Hpos, Hori;
    destruct (substring_in "fisheye" uuid); [|destruct (substring_in "equirect" uuid)];
    unfold bind;
    rewrite ?(subscript_Some _ _ _ module_init Hhfov),
            ?(subscript_Some _ _ _ module_init Hpos),
            ?(subscript_Some _ _ _ module_init Hori),
            ?(subscript_Some _ _ _ module_init Hh),
            ?(subscript_None _ _ module_init Hh),
            ?(subscript_None _ _ module_init Hw);
    reflexivity.
Qed.

Lemma make_cfg_run settings g scene sensors :
  hasattr (new SimulatorConfiguration) "scene_id" = true ->
  PyDict.get settings "scene" = Some scene ->
  PyDict.get settings "sensors" = Some sensors ->
  make_cfg settings g =
    bind (items sensors)
      (fun entries =>
         bind (sensor_loop settings entries [])
           (fun sensor_specs =>
              ret {| sim_cfg :=
                       setattr
                         (setattr
                            (copy_if_present settings "scene_light_setup"
                               (copy_if_present settings "physics_config_file"
                                  (copy_if_present settings "enable_physics"
                                     (setattr
                                        (copy_if_present settings "scene_dataset_config_file"
                                           (new SimulatorConfiguration))
                                        "frustum_culling"
                                        (PyDict.get_default settings "frustum_culling"
                                                            (VBool false))))))
                            "gpu_device_id" (VInt 0))
                         "scene_id" scene;
                     agents :=
                       [ {| agent_attrs := agent_attrs agent_defaults;
                            sensor_specifications := sensor_specs;
                            action_space := action_table |} ] |})) g.
Proof.
  intros Hhas Hscene Hsensors. unfold make_cfg. cbv zeta.
  rewrite hasattr_scene_id_probe, Hhas. cbn [negb].
  unfold bind at 1. rewrite (subscript_Some _ _ _ g Hscene).
  unfold bind at 1. rewrite (subscript_Some _ _ _ g Hsensors).
  reflexivity.
Qed.

Lemma sensor_spec_color_sensor settings height width :
  PyDict.get settings "height" = Some height ->
  PyDict.get settings "width" = Some width ->
  sensor_spec settings "color_sensor" (VDict []) module_init =
    (Ok (create_camera_spec
           [ ("uuid", VStr "color_sensor");
             ("hfov", VInt 90);
             ("position", VList [VInt 0; VFloat (15 # 10); VInt 0]);
             ("orientation", VList [VInt 0; VInt 0; VInt 0]);
             ("resolution", VList [height; width]);
             ("sensor_type", SensorType_COLOR);
             ("sensor_subtype", SensorSubType_PINHOLE);
             ("channels", VInt 4) ]),
     module_init).
Proof.
  intros Hh Hw. unfold sensor_spec, bind at 1, read_global.
  unfold bind at 1, unpack_over, ret. rewrite merge_nil.
  change (substring_in "fisheye" "color_sensor") with false.
  change (substring_in "equirect" "color_sensor") with false.
  cbv iota. unfold bind, subscript. rewrite Hh, Hw. reflexivity.
Qed.

(** C10: [make_cfg] subscripts [settings["sensors"]], [settings["height"]] and
    [settings["width"]] without a fallback: although [default_sim_settings]
    gives all three a value (640, 480, one ["color_sensor"]), settings that lack
    ["sensors"], or that have a first sensor entry and lack ["height"] or
    ["width"], make the call raise a [KeyError] for a key the settings lack
    (the named key when ["scene"] is there). The result of a call never depends
    on [default_sim_settings]; its values only take effect when the caller
    merges the table under the settings before the call. *)
Theorem module_defaults_not_applied settings :
  hasattr (new SimulatorConfiguration) "scene_id" = true ->
  (PyDict.get (default_sim_settings module_init) "width" = Some (VInt 640) /\
   PyDict.get (default_sim_settings module_init) "height" = Some (VInt 480) /\
   PyDict.get (default_sim_settings module_init) "sensors" =
     Some (VDict [ ("color_sensor", VDict []) ])) /\
  (PyDict.get settings "sensors" = None ->
   exists k,
     PyDict.get settings k = None /\
     make_cfg settings module_init = (Raise (KeyError k), module_init) /\
     (is_Some (PyDict.get settings "scene") -> k = "sensors")) /\
  (forall uuid scfg rest,
     PyDict.get settings "sensors" = Some (VDict ((uuid, VDict scfg) :: rest)) ->
     PyDict.get settings "height" = None ->
     exists k,
       PyDict.get settings k = None /\
       make_cfg settings module_init = (Raise (KeyError k), module_init) /\
       (is_Some (PyDict.get settings "scene") -> k = "height")) /\
  (forall uuid scfg rest,
     PyDict.get settings "sensors" = Some (VDict ((uuid, VDict scfg) :: rest)) ->
     PyDict.get settings "width" = None ->
     exists k,
       PyDict.get settings k = None /\
       make_cfg settings module_init = (Raise (KeyError k), module_init) /\
       (is_Some (PyDict.get settings "scene") ->
        is_Some (PyDict.get settings "height") -> k = "width")) /\
  (forall g1 g2,
     default_sensor_settings g1 = default_sensor_settings g2 ->
     (make_cfg settings g1).1 = (make_cfg settings g2).1) /\
  (PyDict.get settings "sensors" = None ->
   PyDict.get settings "height" = None ->
   PyDict.get settings "width" = None ->
   exists cfg spec,
     make_cfg (PyDict.merge (default_sim_settings module_init) settings) module_init =
       (Ok cfg, module_init) /\
     sensor_specifications_of cfg = [spec] /\
     getattr spec "uuid" = Some (VStr "color_sensor") /\
     getattr spec "resolution" = Some (VList [VInt 480; VInt 640])).
Proof.
  intros Hhas. split; [repeat split|].
  assert (Hnoscene : PyDict.get settings "scene" = None ->
                     exists k, PyDict.get settings k = None /\
                       make_cfg settings module_init = (Raise (KeyError k), module_init)).
  { intros Hn. exists "scene". split; [exact Hn|].
    unfold make_cfg. cbv zeta. rewrite hasattr_scene_id_probe, Hhas. cbn [negb].
    unfold bind at 1. rewrite (subscript_None _ _ _ Hn). reflexivity. }
  split; [|split; [|split; [|split]]].
  - intros Hsensors. destruct (PyDict.get settings "scene") as [scene|] eqn:Hscene.
    + exists "sensors". split; [exact Hsensors|]. split; [|reflexivity].
      unfold make_cfg. cbv zeta. rewrite hasattr_scene_id_probe, Hhas. cbn [negb].
      unfold bind at 1. rewrite (subscript_Some _ _ _ _ Hscene).
      unfold bind at 1. rewrite (subscript_None _ _ _ Hsensors). reflexivity.
    + destruct (Hnoscene eq_refl) as (k & Hk & Hrun). exists k.
      split; [exact Hk|]. split; [exact Hrun|]. intros [? ?]; discriminate.
  - intros uuid scfg rest Hsensors Hh.
    destruct (PyDict.get settings "scene") as [scene|] eqn:Hscene.
    + exists "height". split; [exact Hh|]. split; [|reflexivity].
      rewrite (make_cfg_run _ _ _ _ Hhas Hscene Hsensors).
      unfold items, bind at 1, ret. cbn [sensor_loop]. unfold bind at 1, bind at 1.
      rewrite sensor_spec_frame_size, Hh. reflexivity.
    + destruct (Hnoscene eq_refl) as (k & Hk & Hrun). exists k.
      split; [exact Hk|]. split; [exact Hrun|]. intros [? ?]; discriminate.
  - intros uuid scfg rest Hsensors Hw.
    destruct (PyDict.get settings "scene") as [scene|] eqn:Hscene.
    + destruct (PyDict.get settings "height") as [h|] eqn:Hh.
      * exists "width". split; [exact Hw|]. split; [|reflexivity].
        rewrite (make_cfg_run _ _ _ _ Hhas Hscene Hsensors).
        unfold items, bind at 1, ret. cbn [sensor_loop]. unfold bind at 1, bind at 1.
        rewrite sensor_spec_frame_size, Hh, Hw. reflexivity.
      * exists "height". split; [exact Hh|]. split; [|intros _ [? ?]; discriminate].
        rewrite (make_cfg_run _ _ _ _ Hhas Hscene Hsensors).
        unfold items, bind at 1, ret. cbn [sensor_loop]. unfold bind at 1, bind at 1.
        rewrite sensor_spec_frame_size, Hh. reflexivity.
    + destruct (Hnoscene eq_refl) as (k & Hk & Hrun). exists k.
      split; [exact Hk|]. split; [exact Hrun|]. intros [? ?]; discriminate.
  - apply make_cfg_same_result.
  - intros Hsensors Hh Hw.
    set (merged := PyDict.merge (default_sim_settings module_init) settings).
    destruct (get_merge_is_Some (default_sim_settings module_init) settings "scene"
                ltac:(simpl; eauto)) as [scene Hscene].
    pose proof (get_merge_absent (default_sim_settings module_init) _ _ Hsensors) as Hs'.
    pose proof (get_merge_absent (default_sim_settings module_init) _ _ Hh) as Hh'.
    pose proof (get_merge_absent (default_sim_settings module_init) _ _ Hw) as Hw'.
    fold merged in Hscene, Hs', Hh', Hw'.
    change (PyDict.get (default_sim_settings module_init) "sensors")
      with (Some (VDict [ ("color_sensor", VDict []) ])) in Hs'.
    change (PyDict.get (default_sim_settings module_init) "height")
      with (Some (VInt 480)) in Hh'.
    change (PyDict.get (default_sim_settings module_init) "width")
      with (Some (VInt 640)) in Hw'.
    eexists _, _. split; [|split; [|split]].
    + rewrite (make_cfg_run _ _ _ _ Hhas Hscene Hs').
      unfold items, bind at 1, ret. cbn [sensor_loop]. unfold bind at 1, bind at 1.
      rewrite (sensor_spec_color_sensor _ _ _ Hh' Hw'). reflexivity.
    + reflexivity.
    + attr_simpl. reflexivity.
    + attr_simpl. reflexivity.
Qed.

(** ** When a run succeeds, and how it fails *)

Lemma make_cfg_Ok_probe settings g cfg g' :
  make_cfg settings g = (Ok cfg, g') ->
  hasattr (new SimulatorConfiguration) "scene_id" = true.
Proof.
  unfold make_cfg. cbv zeta. rewrite hasattr_scene_id_probe.
  destruct (hasattr (new SimulatorConfiguration) "scene_id"); [reflexivity|].
  intros H. discriminate H.
Qed.

Lemma sensor_spec_not_a_dict settings uuid v g :
  (forall scfg, v <> VDict scfg) ->
  exists msg, sensor_spec settings uuid v g = (Raise (TypeError msg), g).
Proof.
  intros Hv. destruct v; try (eexists; reflexivity).
  exfalso. eapply Hv. reflexivity.
Qed.

(** With a template that has the three keys the sensor-level subscripts
    succeed, so an iteration on a dict only needs the frame size. *)
Lemma sensor_spec_runs settings uuid scfg g height width :
  is_Some (PyDict.get (default_sensor_settings g) "hfov") ->
  is_Some (PyDict.get (default_sensor_settings g) "position") ->
  is_Some (PyDict.get (default_sensor_settings g) "orientation") ->
  PyDict.get settings "height" = Some height ->
  PyDict.get settings "width" = Some width ->
  exists spec, sensor_spec settings uuid (VDict scfg) g = (Ok spec, g).
Proof.
  intros Hh0 Hp0 Ho0 Hh Hw.
  destruct (get_merge_is_Some _ scfg _ Hh0) as [hfov Hhfov].
  destruct (get_merge_is_Some _ scfg _ Hp0) as [pos Hpos].
  destruct (get_merge_is_Some _ scfg _ Ho0) as [ori Hori].
  unfold sensor_spec, bind at 1, read_global. unfold bind at 1, unpack_over, ret.
  destruct (substring_in "fisheye" uuid); [|destruct (substring_in "equirect" uuid)];
    unfold bind;
    rewrite ?(subscript_Some _ _ _ g Hhfov), ?(subscript_Some _ _ _ g Hpos),
            ?(subscript_Some _ _ _ g Hori), ?(subscript_Some _ _ _ g Hh),
            ?(subscript_Some _ _ _ g Hw);
    eexists; reflexivity.
Qed.

(** The loop over a concatenation is the loop over the first part followed by
    the loop over the second, started from what the first accumulated. *)
Lemma sensor_loop_app settings (pre post : dict) acc g :
  sensor_loop settings (pre ++ post)%list acc g =
    bind (sensor_loop settings pre acc) (fun acc' => sensor_loop settings post acc') g.
Proof.
  revert acc g. induction pre as [|[uuid v] pre IH]; intros acc g; simpl; [reflexivity|].
  unfold bind. destruct (sensor_spec settings uuid v g) as [[spec|e] g1]; [|reflexivity].
  rewrite IH. reflexivity.
Qed.

Lemma sensor_loop_runs settings entries acc g height width :
  is_Some (PyDict.get (default_sensor_settings g) "hfov") ->
  is_Some (PyDict.get (default_sensor_settings g) "position") ->
  is_Some (PyDict.get (default_sensor_settings g) "orientation") ->
  PyDict.get settings "height" = Some height ->
  PyDict.get settings "width" = Some width ->
  Forall (fun e => exists scfg, e.2 = VDict scfg) entries ->
  exists specs, sensor_loop settings entries acc g = (Ok specs, g).
Proof.
  intros Hh0 Hp0 Ho0 Hh Hw Hall. revert acc.
  induction Hall as [|[uuid v] entries [scfg Hv] _ IH]; intros acc; simpl in *.
  - eexists. reflexivity.
  - subst v.
    destruct (sensor_spec_runs settings uuid scfg g _ _ Hh0 Hp0 Ho0 Hh Hw) as [spec Hspec].
    unfold bind. rewrite Hspec. apply IH.
Qed.

Lemma sensor_specs_built settings g (entries : dict) (specs : list obj) :
  Forall2 (fun e spec => sensor_spec settings e.1 e.2 g = (Ok spec, g)) entries specs ->
  Forall (fun e => exists scfg, e.2 = VDict scfg) entries /\
  (entries <> [] ->
   is_Some (PyDict.get settings "height") /\ is_Some (PyDict.get settings "width")).
Proof.
  intros Hall. split.
  - induction Hall as [|e spec entries' specs' He _ IH]; constructor; [|exact IH].
    apply sensor_spec_Ok in He as [_ (scfg & ? & ? & ? & ? & Hv & _)]. eauto.
  - destruct Hall as [|e spec entries' specs' He _]; [congruence|]. intros _.
    apply sensor_spec_Ok in He as [_ (scfg & ? & ? & h & w & _ & He)].
    cbv zeta in He. destruct He as (_ & _ & Hh & Hw & _). rewrite Hh, Hw. eauto.
Qed.

(** X1: with the module's tables as imported, [make_cfg] returns a
    configuration exactly when the engine's simulator configuration exposes
    [scene_id], the settings have a ["scene"], [settings["sensors"]] is a dict
    all of whose values are dicts, and, unless that dict is empty, the
    settings have a ["height"] and a ["width"]. In particular no per-sensor
    key is ever required. *)
Theorem make_cfg_succeeds_iff settings :
  (exists cfg, make_cfg settings module_init = (Ok cfg, module_init)) <->
  hasattr (new SimulatorConfiguration) "scene_id" = true /\
  is_Some (PyDict.get settings "scene") /\
  exists entries,
    PyDict.get settings "sensors" = Some (VDict entries) /\
    Forall (fun e => exists scfg, e.2 = VDict scfg) entries /\
    (entries <> [] ->
     is_Some (PyDict.get settings "height") /\ is_Some (PyDict.get settings "width")).
Proof.
  split.
  - intros [cfg H]. split; [exact (make_cfg_Ok_probe _ _ _ _ H)|].
    apply make_cfg_Ok in H as [_ (scene & entries & Hscene & Hs & Hall & _)].
    split; [eauto|]. exists entries. split; [exact Hs|].
    apply (sensor_specs_built _ _ _ _ Hall).
  - intros (Hhas & [scene Hscene] & entries & Hs & Hdicts & Hframe).
    rewrite (make_cfg_run _ _ _ _ Hhas Hscene Hs). unfold items, bind at 1, ret.
    destruct entries as [|e entries].
    + eexists. reflexivity.
    + destruct Hframe as [[h Hh] [w Hw]]; [discriminate|].
      destruct (sensor_loop_runs settings (e :: entries) [] module_init h w
                  ltac:(simpl; eauto) ltac:(simpl; eauto) ltac:(simpl; eauto)
                  Hh Hw Hdicts) as [specs Hspecs].
      unfold bind. rewrite Hspecs. eexists. reflexivity.
Qed.

(** X2: on an engine whose simulator configuration has no [scene_id], every
    call raises the version-mismatch [RuntimeError]: the probe of line 45 comes
    before any read of a required key, and no setting can make it pass. *)
Theorem version_probe_first settings g :
  hasattr (new SimulatorConfiguration) "scene_id" = false ->
  make_cfg settings g = (Raise (RuntimeError version_mismatch), g).
Proof.
  intros Hhas. unfold make_cfg. cbv zeta. rewrite hasattr_scene_id_probe, Hhas.
  reflexivity.
Qed.

(** X3: with an empty [sensors] dict the loop body never runs, so the call
    succeeds without ["height"] or ["width"]: it returns one agent with no
    sensor and a simulator configuration whose [scene_id] is the scene. *)
Theorem no_sensors_no_frame_size settings g scene :
  hasattr (new SimulatorConfiguration) "scene_id" = true ->
  PyDict.get settings "scene" = Some scene ->
  PyDict.get settings "sensors" = Some (VDict []) ->
  exists cfg agent,
    make_cfg settings g = (Ok cfg, g) /\
    agents cfg = [agent] /\
    sensor_specifications agent = [] /\
    getattr (sim_cfg cfg) "scene_id" = Some scene.
Proof.
  intros Hhas Hscene Hs. rewrite (make_cfg_run _ _ _ _ Hhas Hscene Hs).
  eexists _, _. split; [reflexivity|]. split; [reflexivity|]. split; [reflexivity|].
  simpl. apply getattr_setattr_eq.
Qed.

(** X4: when [settings["sensors"]] is there and is not a dict, the call to
    [.items()] on line 88 raises an [AttributeError]. *)
Theorem sensors_not_a_dict settings g scene sensors :
  hasattr (new SimulatorConfiguration) "scene_id" = true ->
  PyDict.get settings "scene" = Some scene ->
  PyDict.get settings "sensors" = Some sensors ->
  (forall entries, sensors <> VDict entries) ->
  exists msg, make_cfg settings g = (Raise (AttributeError msg), g).
Proof.
  intros Hhas Hscene Hs Hnot. rewrite (make_cfg_run _ _ _ _ Hhas Hscene Hs).
  destruct sensors; try (eexists; reflexivity).
  exfalso. eapply Hnot. reflexivity.
Qed.

(** X5: the first sensor entry whose settings are not a dict stops the call
    with a [TypeError] (line 90) and no configuration, when the entries before
    it are dicts and, if there are any, the frame size is given. When it is the
    very first entry the [TypeError] comes even without ["height"] and
    ["width"], which are read later. *)
Theorem first_bad_sensor_entry settings scene (pre post : dict) uuid v :
  hasattr (new SimulatorConfiguration) "scene_id" = true ->
  PyDict.get settings "scene" = Some scene ->
  PyDict.get settings "sensors" = Some (VDict (pre ++ (uuid, v) :: post)%list) ->
  Forall (fun e => exists scfg, e.2 = VDict scfg) pre ->
  (pre <> [] ->
   is_Some (PyDict.get settings "height") /\ is_Some (PyDict.get settings "width")) ->
  (forall scfg, v <> VDict scfg) ->
  exists msg, make_cfg settings module_init = (Raise (TypeError msg), module_init).
Proof.
  intros Hhas Hscene Hs Hpre Hframe Hv.
  rewrite (make_cfg_run _ _ _ _ Hhas Hscene Hs). unfold items, bind at 1, ret.
  unfold bind at 1. rewrite sensor_loop_app. unfold bind at 1.
  assert (Hrun : exists specs, sensor_loop settings pre [] module_init = (Ok specs, module_init)).
  { destruct pre as [|e pre]; [eexists; reflexivity|].
    destruct Hframe as [[h Hh] [w Hw]]; [discriminate|].
    apply (sensor_loop_runs settings (e :: pre) [] module_init h w); simpl; eauto. }
  destruct Hrun as [specs Hspecs]. rewrite Hspecs. cbn [sensor_loop]. unfold bind at 1.
  destruct (sensor_spec_not_a_dict settings uuid v module_init Hv) as [msg Hmsg].
  rewrite Hmsg. exists msg. reflexivity.
Qed.

(** ** What a run assigns and what it reads *)

Lemma cls_copy_if_present settings k o : cls (copy_if_present settings k o) = cls o.
Proof. unfold copy_if_present. destruct (PyDict.get settings k); reflexivity. Qed.

Lemma cls_create_camera_spec kw_args : cls (create_camera_spec kw_args) = CameraSensorSpec.
Proof. unfold create_camera_spec. rewrite cls_setattrs. reflexivity. Qed.

Lemma cls_create_fisheye_spec kw_args :
  cls (create_fisheye_spec kw_args) = FisheyeSensorDoubleSphereSpec.
Proof. unfold create_fisheye_spec. rewrite cls_setattrs. reflexivity. Qed.

Lemma cls_create_equirect_spec kw_args :
  cls (create_equirect_spec kw_args) = EquirectangularSensorSpec.
Proof. unfold create_equirect_spec. rewrite cls_setattrs. reflexivity. Qed.

Ltac attr_frame :=
  unfold create_camera_spec, create_fisheye_spec, create_equirect_spec, setattrs;
  cbn [fold_left fst snd];
  repeat first
    [ rewrite getattr_setattr_ne by congruence
    | rewrite getattr_copy_if_present_ne by congruence ].

(** X6: the simulator configuration of a successful run is a
    [SimulatorConfiguration] whose [scene_id] is [settings["scene"]], and every
    attribute other than the seven that lines 36-49 name is what the engine's
    constructor left. *)
Theorem sim_cfg_frame settings g cfg g' :
  make_cfg settings g = (Ok cfg, g') ->
  cls (sim_cfg cfg) = SimulatorConfiguration /\
  getattr (sim_cfg cfg) "scene_id" = PyDict.get settings "scene" /\
  forall k,
    k ∉ ["scene_dataset_config_file"; "frustum_culling"; "enable_physics";
         "physics_config_file"; "scene_light_setup"; "gpu_device_id"; "scene_id"] ->
    getattr (sim_cfg cfg) k = engine_defaults SimulatorConfiguration !! k.
Proof.
  intros H. apply make_cfg_Ok in H as [_ (scene & entries & Hscene & _ & _ & _ & ->)].
  split; [|split].
  - simpl. rewrite !cls_copy_if_present. simpl. apply cls_copy_if_present.
  - rewrite Hscene. apply getattr_setattr_eq.
  - intros k Hk. repeat (apply not_elem_of_cons in Hk as [? Hk]).
    attr_frame. reflexivity.
Qed.

(** X7: each spec has the class of its constructor, and the only attributes
    that differ from a fresh object of that class are the keywords passed at
    the call site, plus, for a fisheye spec, the five attributes that
    [create_fisheye_spec] assigns itself. So [hfov] and [sensor_subtype] are
    assigned on pinhole specs only. *)
Theorem sensor_spec_frame settings g cfg g' :
  make_cfg settings g = (Ok cfg, g') ->
  exists entries,
    PyDict.get settings "sensors" = Some (VDict entries) /\
    Forall2
      (fun e spec =>
         forall k,
           k ∉ match cls spec with
               | CameraSensorSpec =>
                   ["uuid"; "hfov"; "position"; "orientation"; "resolution";
                    "sensor_type"; "sensor_subtype"; "channels"]
               | FisheyeSensorDoubleSphereSpec =>
                   ["sensor_model_type"; "xi"; "alpha"; "focal_length";
                    "principal_point_offset"; "uuid"; "position"; "orientation";
                    "resolution"; "sensor_type"; "channels"]
               | EquirectangularSensorSpec =>
                   ["uuid"; "position"; "orientation"; "resolution";
                    "sensor_type"; "channels"]
               | SimulatorConfiguration => []
               end ->
           getattr spec k = engine_defaults (cls spec) !! k)
      entries (sensor_specifications_of cfg).
Proof.
  apply make_cfg_each_sensor. intros [uuid v] spec H k. simpl in H.
  apply sensor_spec_Ok in H as [_ (scfg & pos & ori & h & w & _ & H)].
  cbv zeta in H.
  destruct H as (_ & _ & _ & _ & [[_ ->] | [(_ & _ & ->) | (_ & _ & hfov & _ & ->)]]).
  - rewrite cls_create_fisheye_spec. intros Hk.
    repeat (apply not_elem_of_cons in Hk as [? Hk]). attr_frame. reflexivity.
  - rewrite cls_create_equirect_spec. intros Hk.
    repeat (apply not_elem_of_cons in Hk as [? Hk]). attr_frame. reflexivity.
  - rewrite cls_create_camera_spec. intros Hk.
    repeat (apply not_elem_of_cons in Hk as [? Hk]). attr_frame. reflexivity.
Qed.

Lemma bind_ext {A B} (m : M A) (k1 k2 : A -> M B) g :
  (forall a g1, k1 a g1 = k2 a g1) -> bind m k1 g = bind m k2 g.
Proof.
  intros Hk. unfold bind. destruct (m g) as [[a|e] g1]; [apply Hk | reflexivity].
Qed.

Lemma subscript_reads settings1 settings2 k :
  PyDict.get settings1 k = PyDict.get settings2 k ->
  subscript settings1 k = subscript settings2 k.
Proof. intros Hk. unfold subscript. rewrite Hk. reflexivity. Qed.

Lemma copy_if_present_reads settings1 settings2 k o :
  PyDict.get settings1 k = PyDict.get settings2 k ->
  copy_if_present settings1 k o = copy_if_present settings2 k o.
Proof. intros Hk. unfold copy_if_present. rewrite Hk. reflexivity. Qed.

Lemma sensor_spec_reads settings1 settings2 uuid v g :
  PyDict.get settings1 "height" = PyDict.get settings2 "height" ->
  PyDict.get settings1 "width" = PyDict.get settings2 "width" ->
  sensor_spec settings1 uuid v g = sensor_spec settings2 uuid v g.
Proof.
  intros Hh Hw. unfold sensor_spec, subscript. rewrite Hh, Hw. reflexivity.
Qed.

Lemma sensor_loop_reads settings1 settings2 entries acc g :
  PyDict.get settings1 "height" = PyDict.get settings2 "height" ->
  PyDict.get settings1 "width" = PyDict.get settings2 "width" ->
  sensor_loop settings1 entries acc g = sensor_loop settings2 entries acc g.
Proof.
  intros Hh Hw. revert acc g.
  induction entries as [|[uuid v] entries IH]; intros acc g; simpl; [reflexivity|].
  unfold bind. rewrite (sensor_spec_reads _ _ _ _ _ Hh Hw).
  destruct (sensor_spec settings2 uuid v g) as [[spec|e] g1]; [apply IH | reflexivity].
Qed.

(** X8: [make_cfg] reads nine keys of the settings and no other: two settings
    that agree on them give the same result, configuration or exception. A
    ["seed"], a ["default_agent"] or a ["gpu_device_id"] changes nothing. *)
Theorem unread_settings_ignored settings1 settings2 g :
  (forall k,
     k ∈ ["scene_dataset_config_file"; "frustum_culling"; "enable_physics";
          "physics_config_file"; "scene_light_setup"; "scene"; "sensors";
          "height"; "width"] ->
     PyDict.get settings1 k = PyDict.get settings2 k) ->
  make_cfg settings1 g = make_cfg settings2 g.
Proof.
  intros Hsame.
  assert (H1 := Hsame "scene_dataset_config_file" ltac:(repeat constructor)).
  assert (H2 := Hsame "frustum_culling" ltac:(repeat constructor)).
  assert (H3 := Hsame "enable_physics" ltac:(repeat constructor)).
  assert (H4 := Hsame "physics_config_file" ltac:(repeat constructor)).
  assert (H5 := Hsame "scene_light_setup" ltac:(repeat constructor)).
  assert (H6 := Hsame "scene" ltac:(repeat constructor)).
  assert (H7 := Hsame "sensors" ltac:(repeat constructor)).
  assert (H8 := Hsame "height" ltac:(repeat constructor)).
  assert (H9 := Hsame "width" ltac:(repeat constructor)).
  unfold make_cfg. cbv zeta.
  rewrite (copy_if_present_reads _ _ _ _ H1). unfold PyDict.get_default. rewrite H2.
  rewrite (copy_if_present_reads _ _ _ _ H3), (copy_if_present_reads _ _ _ _ H4),
          (copy_if_present_reads _ _ _ _ H5).
  rewrite (subscript_reads _ _ _ H6), (subscript_reads _ _ _ H7).
  match goal with |- (if ?b then _ else _) _ = _ => destruct b end; [reflexivity|].
  apply bind_ext; intros scene g1. apply bind_ext; intros sensors g2.
  apply bind_ext; intros entries g3.
  unfold bind. rewrite (sensor_loop_reads _ _ _ _ _ H8 H9). reflexivity.
Qed.

(** X9: of a sensor's own settings an iteration reads [position],
    [orientation] and [sensor_type], and for a pinhole sensor also [hfov] and
    [sensor_subtype]: two settings dicts that agree on these keys give the
    same spec, so any other per-sensor key ([xi], [resolution], a misspelt
    name) is silently dropped. *)
Theorem sensor_settings_read settings uuid scfg1 scfg2 g :
  PyDict.wf scfg1 ->
  PyDict.wf scfg2 ->
  (forall k,
     k ∈ ["position"; "orientation"; "sensor_type"] ->
     PyDict.get scfg1 k = PyDict.get scfg2 k) ->
  (Contains "fisheye" uuid \/ Contains "equirect" uuid \/
   (PyDict.get scfg1 "hfov" = PyDict.get scfg2 "hfov" /\
    PyDict.get scfg1 "sensor_subtype" = PyDict.get scfg2 "sensor_subtype")) ->
  sensor_spec settings uuid (VDict scfg1) g = sensor_spec settings uuid (VDict scfg2) g.
Proof.
  intros Hwf1 Hwf2 Hsame Hkind.
  assert (Heff : forall k, PyDict.get scfg1 k = PyDict.get scfg2 k ->
            PyDict.get (PyDict.merge (default_sensor_settings g) scfg1) k =
            PyDict.get (PyDict.merge (default_sensor_settings g) scfg2) k).
  { intros k Hk. rewrite !get_merge, Hk by assumption. reflexivity. }
  assert (Hpos := Heff _ (Hsame "position" ltac:(repeat constructor))).
  assert (Hori := Heff _ (Hsame "orientation" ltac:(repeat constructor))).
  assert (Hty := Heff _ (Hsame "sensor_type" ltac:(repeat constructor))).
  unfold sensor_spec, bind at 1, read_global. unfold bind at 1, unpack_over, ret.
  unfold bind at 1, read_global. unfold bind at 1.
  unfold PyDict.get_default, subscript. rewrite Hpos, Hori, Hty.
  destruct (substring_in "fisheye" uuid) eqn:Hf; [reflexivity|].
  destruct (substring_in "equirect" uuid) eqn:He; [reflexivity|].
  destruct Hkind as [Hc | [Hc | [Hhfov Hsub]]];
    [apply substring_in_spec in Hc; congruence..|].
  rewrite (Heff _ Hhfov), (Heff _ Hsub). reflexivity.
Qed.

(** X10: the specs of a successful run carry the keys of
    [settings["sensors"]] as their [uuid], so when those keys are pairwise
    distinct (as the keys of a dict are) no two specs share a [uuid]. *)
Theorem sensor_uuids_distinct settings g cfg g' entries :
  make_cfg settings g = (Ok cfg, g') ->
  PyDict.get settings "sensors" = Some (VDict entries) ->
  PyDict.wf entries ->
  NoDup (map (fun spec => getattr spec "uuid") (sensor_specifications_of cfg)).
Proof.
  intros H Hs Hwf. apply make_cfg_Ok in H as [_ (scene & entries' & _ & Hs' & Hall & _)].
  rewrite Hs in Hs'. injection Hs' as <-.
  rewrite (sensor_specs_uuids _ _ _ _ Hall). clear Hall Hs.
  unfold PyDict.wf in Hwf. induction entries as [|[uuid v] entries IH]; simpl in *.
  - constructor.
  - apply NoDup_cons in Hwf as [Hfresh Hwf]. apply NoDup_cons. split; [|apply IH, Hwf].
    intros Hin. apply Hfresh. clear IH Hwf Hfresh.
    induction entries as [|[uuid' v'] entries IH]; simpl in *.
    + apply elem_of_nil in Hin. contradiction.
    + apply elem_of_cons.
      apply elem_of_cons in Hin as [Heq | Hin]; [left; congruence | right; apply IH, Hin].
Qed.

(** X11: the spec built for a sensor entry depends on that entry and on the
    frame size only, not on the other entries, their order, or any other
    setting: in two successful runs with the same ["height"] and ["width"], an
    entry that stands at index [i] in one [sensors] dict and at index [j] in the
    other gets the same spec, at index [i] and at index [j] of the two sensor
    lists. *)
Theorem sensor_spec_local settings1 settings2 g cfg1 g1 cfg2 g2
        (entries1 entries2 : dict) (i j : nat) (e : string * value) :
  make_cfg settings1 g = (Ok cfg1, g1) ->
  make_cfg settings2 g = (Ok cfg2, g2) ->
  PyDict.get settings1 "height" = PyDict.get settings2 "height" ->
  PyDict.get settings1 "width" = PyDict.get settings2 "width" ->
  PyDict.get settings1 "sensors" = Some (VDict entries1) ->
  PyDict.get settings2 "sensors" = Some (VDict entries2) ->
  entries1 !! i = Some e ->
  entries2 !! j = Some e ->
  exists spec,
    sensor_specifications_of cfg1 !! i = Some spec /\
    sensor_specifications_of cfg2 !! j = Some spec.
Proof.
  intros H1 H2 Hh Hw Hs1 Hs2 Hi Hj.
  apply make_cfg_Ok in H1 as [_ (? & es1 & _ & Hs1' & Hall1 & _)].
  apply make_cfg_Ok in H2 as [_ (? & es2 & _ & Hs2' & Hall2 & _)].
  rewrite Hs1 in Hs1'. injection Hs1' as <-.
  rewrite Hs2 in Hs2'. injection Hs2' as <-.
  destruct (Forall2_lookup_l _ _ _ _ _ Hall1 Hi) as (spec1 & Hspec1 & Hrun1).
  destruct (Forall2_lookup_l _ _ _ _ _ Hall2 Hj) as (spec2 & Hspec2 & Hrun2).
  rewrite (sensor_spec_reads _ _ _ _ _ Hh Hw) in Hrun1.
  rewrite Hrun1 in Hrun2. injection Hrun2 as <-.
  exists spec1. split; assumption.
Qed.

(** X12: the per-sensor subscripts rely on the template. In a module state
    whose [default_sensor_settings] has lost its ["position"] (and still has
    ["hfov"]), a first sensor entry that names no ["position"] of its own stops
    the call with [KeyError "position"], whatever kind of sensor it is. *)
Theorem template_key_required settings g scene uuid scfg rest :
  hasattr (new SimulatorConfiguration) "scene_id" = true ->
  PyDict.get settings "scene" = Some scene ->
  PyDict.get settings "sensors" = Some (VDict ((uuid, VDict scfg) :: rest)) ->
  is_Some (PyDict.get (default_sensor_settings g) "hfov") ->
  PyDict.get (default_sensor_settings g) "position" = None ->
  PyDict.get scfg "position" = None ->
  make_cfg settings g = (Raise (KeyError "position"), g).
Proof.
  intros Hhas Hscene Hs Hhfov0 Hpos0 Hpos1.
  destruct (get_merge_is_Some _ scfg _ Hhfov0) as [hfov Hhfov].
  pose proof (get_merge_absent (default_sensor_settings g) _ _ Hpos1) as Hpos.
  rewrite Hpos0 in Hpos.
  rewrite (make_cfg_run _ _ _ _ Hhas Hscene Hs).
  unfold items, bind at 1, ret. cbn [sensor_loop]. unfold bind at 1, bind at 1.
  unfold sensor_spec, bind at 1, read_global. unfold bind at 1, unpack_over, ret.
  destruct (substring_in "fisheye" uuid); [|destruct (substring_in "equirect" uuid)];
    unfold bind;
    rewrite ?(subscript_Some _ _ _ g Hhfov), (subscript_None _ _ g Hpos);
    reflexivity.
Qed.

End Resolver.

(** ** The theorems at concrete inputs *)

Lemma make_cfg_missing_scene_witness :
  PyDict.get no_scene "scene" = None /\
  make_cfg bare_engine bare_agent no_scene module_init =
    (Raise (KeyError "scene"), module_init) /\
  make_cfg legacy_engine bare_agent no_scene module_init =
    (Raise (RuntimeError version_mismatch), module_init).
Proof.
  split; [reflexivity|]. split.
  - exact (make_cfg_missing_scene bare_engine bare_agent no_scene module_init eq_refl).
  - exact (make_cfg_missing_scene legacy_engine bare_agent no_scene module_init eq_refl).
Defined.

(** The sample settings resolve on the bare engine. *)
Lemma two_sensors_runs :
  exists cfg, make_cfg bare_engine bare_agent two_sensors module_init = (Ok cfg, module_init).
Proof. eexists. vm_compute. reflexivity. Qed.

Lemma three_kinds_runs :
  exists cfg, make_cfg bare_engine bare_agent three_kinds module_init = (Ok cfg, module_init).
Proof. eexists. vm_compute. reflexivity. Qed.

Lemma sim_cfg_fields_witness :
  exists cfg,
    make_cfg bare_engine bare_agent three_kinds module_init = (Ok cfg, module_init) /\
    getattr (sim_cfg cfg) "enable_physics" = Some (VBool true) /\
    getattr (sim_cfg cfg) "physics_config_file" = None /\
    getattr (sim_cfg cfg) "frustum_culling" = Some (VBool false) /\
    getattr (sim_cfg cfg) "gpu_device_id" = Some (VInt 0).
Proof.
  destruct three_kinds_runs as [cfg Hrun]. exists cfg. split; [exact Hrun|].
  destruct (sim_cfg_fields bare_engine bare_agent three_kinds module_init cfg module_init Hrun)
    as (Hcopy & Hfc & Hgpu).
  split; [|split; [|split]].
  - apply (Hcopy "enable_physics"). set_solver.
  - apply (Hcopy "physics_config_file"). set_solver.
  - exact Hfc.
  - exact Hgpu.
Defined.

Lemma single_agent_fixed_actions_witness :
  exists cfg agent,
    make_cfg bare_engine bare_agent two_sensors module_init = (Ok cfg, module_init) /\
    agents cfg = [agent] /\
    map (fun spec => getattr spec "uuid") (sensor_specifications agent) =
      [Some (VStr "a"); Some (VStr "b")] /\
    map fst (action_space agent) = ["move_forward"; "turn_left"; "turn_right"].
Proof.
  destruct two_sensors_runs as [cfg Hrun].
  destruct (single_agent_fixed_actions bare_engine bare_agent two_sensors
              module_init cfg module_init Hrun)
    as (agent & entries & Hag & Hs & _ & Huuid & Hact).
  simpl in Hs. injection Hs as <-.
  exists cfg, agent. split; [exact Hrun|]. split; [exact Hag|].
  rewrite Huuid, Hact. split; reflexivity.
Defined.

Lemma sensor_kind_by_identifier_witness :
  exists cfg color fisheye equirect,
    make_cfg bare_engine bare_agent three_kinds module_init = (Ok cfg, module_init) /\
    sensor_specifications_of cfg = [color; fisheye; equirect] /\
    cls color = CameraSensorSpec /\
    cls fisheye = FisheyeSensorDoubleSphereSpec /\
    cls equirect = EquirectangularSensorSpec.
Proof.
  destruct three_kinds_runs as [cfg Hrun].
  destruct (proj1 (sensor_kind_by_identifier bare_engine bare_agent)
              three_kinds module_init cfg module_init Hrun)
    as (entries & Hs & Hall).
  simpl in Hs. injection Hs as <-.
  apply Forall2_cons_inv_l in Hall as (color & ? & (_ & _ & Hcolor) & Hall & Hspecs).
  apply Forall2_cons_inv_l in Hall as (fisheye & ? & (Hfisheye & _) & Hall & ->).
  apply Forall2_cons_inv_l in Hall as (equirect & ? & (_ & Hequirect & _) & Hall & ->).
  apply Forall2_nil_inv_l in Hall as ->.
  exists cfg, color, fisheye, equirect.
  split; [exact Hrun|]. split; [exact Hspecs|]. split; [|split].
  - apply Hcolor; apply substring_in_false; reflexivity.
  - apply Hfisheye. apply substring_in_spec. reflexivity.
  - apply Hequirect; [apply substring_in_false | apply substring_in_spec]; reflexivity.
Defined.

Lemma shared_resolution_witness :
  exists cfg a b,
    make_cfg bare_engine bare_agent two_sensors module_init = (Ok cfg, module_init) /\
    sensor_specifications_of cfg = [a; b] /\
    getattr a "resolution" = Some (VList [VInt 480; VInt 640]) /\
    getattr b "resolution" = Some (VList [VInt 480; VInt 640]).
Proof.
  destruct two_sensors_runs as [cfg Hrun].
  destruct (shared_resolution bare_engine bare_agent two_sensors
              module_init cfg module_init Hrun)
    as (entries & Hs & Hlen & Hres).
  simpl in Hs. injection Hs as <-.
  destruct (sensor_specifications_of cfg) as [|a [|b [|c specs]]] eqn:Hspecs;
    try discriminate Hlen.
  exists cfg, a, b. split; [exact Hrun|]. split; [exact Hspecs|]. split.
  - destruct (Hres a ltac:(set_solver)) as (h & w & Hh & Hw & Ha).
    simpl in Hh, Hw. injection Hh as <-. injection Hw as <-. exact Ha.
  - destruct (Hres b ltac:(set_solver)) as (h & w & Hh & Hw & Hb).
    simpl in Hh, Hw. injection Hh as <-. injection Hw as <-. exact Hb.
Defined.

Lemma channels_by_sensor_type_witness :
  exists cfg color fisheye equirect,
    make_cfg bare_engine bare_agent three_kinds module_init = (Ok cfg, module_init) /\
    sensor_specifications_of cfg = [color; fisheye; equirect] /\
    getattr color "channels" = Some (VInt 4) /\
    getattr equirect "sensor_type" = Some (VEnum "SensorType" "DEPTH") /\
    getattr equirect "channels" = Some (VInt 1).
Proof.
  destruct three_kinds_runs as [cfg Hrun].
  destruct (channels_by_sensor_type bare_engine bare_agent three_kinds
              module_init cfg module_init Hrun)
    as (entries & Hs & Hall).
  simpl in Hs. injection Hs as <-.
  apply Forall2_cons_inv_l in Hall as (color & ? & Hcolor & Hall & Hspecs).
  apply Forall2_cons_inv_l in Hall as (fisheye & ? & _ & Hall & ->).
  apply Forall2_cons_inv_l in Hall as (equirect & ? & Hequirect & Hall & ->).
  apply Forall2_nil_inv_l in Hall as ->.
  exists cfg, color, fisheye, equirect.
  split; [exact Hrun|]. split; [exact Hspecs|].
  destruct Hcolor as (scfg & Hscfg & _ & Hfour & _ & Habsent & _).
  simpl in Hscfg. injection Hscfg as <-.
  destruct Hequirect as (scfg & Hscfg & Hty & _ & Hone & _ & Hown).
  simpl in Hscfg. injection Hscfg as <-.
  assert (Hwf : PyDict.wf [ ("sensor_type", VEnum "SensorType" "DEPTH") ])
    by apply NoDup_singleton.
  split; [|split].
  - apply Hfour, Habsent; reflexivity.
  - rewrite Hty, (Hown Hwf _ eq_refl). reflexivity.
  - apply Hone. rewrite (Hown Hwf _ eq_refl). discriminate.
Defined.

Lemma effective_sensor_settings_witness :
  (exists cfg a b,
     make_cfg bare_engine bare_agent two_sensors module_init = (Ok cfg, module_init) /\
     sensor_specifications_of cfg = [a; b] /\
     getattr a "hfov" = Some (VInt 90) /\
     getattr a "position" = Some (VList [VInt 0; VFloat (15 # 10); VInt 0]) /\
     getattr a "orientation" = Some (VList [VInt 0; VInt 0; VInt 0])) /\
  (exists cfg color fisheye equirect,
     make_cfg bare_engine bare_agent three_kinds module_init = (Ok cfg, module_init) /\
     sensor_specifications_of cfg = [color; fisheye; equirect] /\
     getattr color "hfov" = Some (VInt 75) /\
     getattr fisheye "hfov" = None).
Proof.
  split.
  - destruct two_sensors_runs as [cfg Hrun].
    destruct (effective_sensor_settings bare_engine bare_agent two_sensors cfg module_init Hrun)
      as (entries & Hs & Hall).
    simpl in Hs. injection Hs as <-.
    apply Forall2_cons_inv_l in Hall as (a & ? & Ha & Hall & Hspecs).
    apply Forall2_cons_inv_l in Hall as (b & ? & _ & Hall & ->).
    apply Forall2_nil_inv_l in Hall as ->.
    exists cfg, a, b. split; [exact Hrun|]. split; [exact Hspecs|].
    destruct Ha as (scfg & Hscfg & _ & Hempty & Hpos & Hori & Hcam & _).
    simpl in Hscfg. injection Hscfg as <-.
    rewrite Hpos, Hori, (Hempty eq_refl).
    destruct Hcam as (_ & _ & Hdefault); [apply substring_in_false; reflexivity..|].
    split; [apply Hdefault; reflexivity|]. split; reflexivity.
  - destruct three_kinds_runs as [cfg Hrun].
    destruct (effective_sensor_settings bare_engine bare_agent three_kinds cfg module_init Hrun)
      as (entries & Hs & Hall).
    simpl in Hs. injection Hs as <-.
    apply Forall2_cons_inv_l in Hall as (color & ? & Hcolor & Hall & Hspecs).
    apply Forall2_cons_inv_l in Hall as (fisheye & ? & Hfisheye & Hall & ->).
    apply Forall2_cons_inv_l in Hall as (equirect & ? & _ & Hall & ->).
    apply Forall2_nil_inv_l in Hall as ->.
    exists cfg, color, fisheye, equirect. split; [exact Hrun|]. split; [exact Hspecs|].
    split.
    + destruct Hcolor as (scfg & Hscfg & _ & _ & _ & _ & Hcam & _).
      simpl in Hscfg. injection Hscfg as <-.
      destruct Hcam as (_ & Hown & _); [apply substring_in_false; reflexivity..|].
      apply Hown; [apply NoDup_singleton | reflexivity].
    + destruct Hfisheye as (scfg & _ & _ & _ & _ & _ & _ & Hother).
      rewrite Hother; [|left; apply substring_in_spec; reflexivity].
      destruct (cls fisheye); reflexivity.
Defined.

(** On a fisheye sensor whose settings say [hfov: 75], the spec that [make_cfg]
    builds is a fisheye spec with no [hfov] at all. *)
Lemma fisheye_spec_has_no_hfov :
  exists cfg,
    make_cfg bare_engine bare_agent fisheye_hfov module_init = (Ok cfg, module_init) /\
    map (fun spec => (cls spec, getattr spec "hfov")) (sensor_specifications_of cfg) =
      [ (FisheyeSensorDoubleSphereSpec, None) ].
Proof. eexists. split; vm_compute; reflexivity. Qed.

(** A fisheye sensor whose settings say xi 0.5, alpha 0.9, focal length
    [100, 100] and principal-point offset [1, 1] gets a spec with the four
    constants: the supplied values do not win. *)
Lemma fisheye_settings_do_not_override :
  exists cfg,
    make_cfg bare_engine bare_agent fisheye_lens_override module_init =
      (Ok cfg, module_init) /\
    map (fun spec =>
           (getattr spec "xi", getattr spec "alpha",
            getattr spec "focal_length", getattr spec "principal_point_offset"))
        (sensor_specifications_of cfg) =
      [ (Some (VFloat (-27 # 100)), Some (VFloat (57 # 100)),
         Some (VList [VFloat (36484 # 100); VFloat (36486 # 100)]), Some VNone) ].
Proof. eexists. split; vm_compute; reflexivity. Qed.

Lemma fisheye_lens_constants_witness :
  (exists cfg color fisheye equirect,
     make_cfg bare_engine bare_agent three_kinds module_init = (Ok cfg, module_init) /\
     sensor_specifications_of cfg = [color; fisheye; equirect] /\
     getattr fisheye "xi" = Some (VFloat (-27 # 100)) /\
     getattr fisheye "alpha" = Some (VFloat (57 # 100)) /\
     getattr fisheye "focal_length" =
       Some (VList [VFloat (36484 # 100); VFloat (36486 # 100)]) /\
     getattr fisheye "principal_point_offset" = Some VNone) /\
  sensor_spec bare_engine three_kinds "fisheye_sensor"
              (VDict (PyDict.set [ ("hfov", VInt 75) ] "xi" (VFloat (5 # 10))))
              module_init =
    sensor_spec bare_engine three_kinds "fisheye_sensor"
                (VDict [ ("hfov", VInt 75) ]) module_init.
Proof.
  destruct (fisheye_lens_constants bare_engine bare_agent) as [Hcfg Hset]. split.
  - destruct three_kinds_runs as [cfg Hrun].
    destruct (Hcfg three_kinds module_init cfg module_init Hrun) as (entries & Hs & Hall).
    simpl in Hs. injection Hs as <-.
    apply Forall2_cons_inv_l in Hall as (color & ? & _ & Hall & Hspecs).
    apply Forall2_cons_inv_l in Hall as (fisheye & ? & Hfisheye & Hall & ->).
    apply Forall2_cons_inv_l in Hall as (equirect & ? & _ & Hall & ->).
    apply Forall2_nil_inv_l in Hall as ->.
    exists cfg, color, fisheye, equirect. split; [exact Hrun|]. split; [exact Hspecs|].
    apply Hfisheye. apply substring_in_spec. reflexivity.
  - apply Hset.
    + apply substring_in_spec. reflexivity.
    + apply elem_of_cons. left. reflexivity.
Defined.

Lemma module_defaults_not_applied_witness :
  hasattr (new bare_engine SimulatorConfiguration) "scene_id" = true /\
  make_cfg bare_engine bare_agent scene_only module_init =
    (Raise (KeyError "sensors"), module_init) /\
  make_cfg bare_engine bare_agent no_frame_size module_init =
    (Raise (KeyError "height"), module_init) /\
  make_cfg bare_engine bare_agent no_width module_init =
    (Raise (KeyError "width"), module_init) /\
  (exists cfg spec,
     make_cfg bare_engine bare_agent
              (PyDict.merge (default_sim_settings module_init) scene_only) module_init =
       (Ok cfg, module_init) /\
     sensor_specifications_of cfg = [spec] /\
     getattr spec "uuid" = Some (VStr "color_sensor") /\
     getattr spec "resolution" = Some (VList [VInt 480; VInt 640])).
Proof.
  assert (Hhas : hasattr (new bare_engine SimulatorConfiguration) "scene_id" = true)
    by reflexivity.
  split; [exact Hhas|]. split; [|split; [|split]].
  - destruct (module_defaults_not_applied bare_engine bare_agent scene_only Hhas)
      as (_ & Hsensors & _).
    destruct (Hsensors eq_refl) as (k & _ & Hrun & Hk).
    rewrite Hrun, Hk; [reflexivity | simpl; eauto].
  - destruct (module_defaults_not_applied bare_engine bare_agent no_frame_size Hhas)
      as (_ & _ & Hheight & _).
    destruct (Hheight _ _ _ eq_refl eq_refl) as (k & _ & Hrun & Hk).
    rewrite Hrun, Hk; [reflexivity | simpl; eauto].
  - destruct (module_defaults_not_applied bare_engine bare_agent no_width Hhas)
      as (_ & _ & _ & Hwidth & _).
    destruct (Hwidth _ _ _ eq_refl eq_refl) as (k & _ & Hrun & Hk).
    rewrite Hrun, Hk; [reflexivity | simpl; eauto..].
  - destruct (module_defaults_not_applied bare_engine bare_agent scene_only Hhas)
      as (_ & _ & _ & _ & _ & Hmerged).
    exact (Hmerged eq_refl eq_refl eq_refl).
Defined.

(** ** Further properties at concrete inputs *)

Lemma fisheye_hfov_runs :
  exists cfg, make_cfg bare_engine bare_agent fisheye_hfov module_init = (Ok cfg, module_init).
Proof. eexists. vm_compute. reflexivity. Qed.

Lemma two_sensors_swapped_runs :
  exists cfg,
    make_cfg bare_engine bare_agent two_sensors_swapped module_init = (Ok cfg, module_init).
Proof. eexists. vm_compute. reflexivity. Qed.

Ltac keys_distinct :=
  unfold PyDict.wf; simpl;
  repeat (apply NoDup_cons; split;
          [ let H := fresh in
            intros H;
            repeat (apply elem_of_cons in H as [H | H]; [discriminate H|]);
            apply elem_of_nil in H; contradiction
          | ]);
  apply NoDup_nil_2.

Ltac not_a_key :=
  repeat (apply not_elem_of_cons; split; [discriminate|]); apply not_elem_of_nil.

Lemma version_probe_first_witness :
  hasattr (new legacy_engine SimulatorConfiguration) "scene_id" = false /\
  make_cfg legacy_engine bare_agent three_kinds module_init =
    (Raise (RuntimeError version_mismatch), module_init).
Proof.
  split; [reflexivity|].
  exact (version_probe_first legacy_engine bare_agent three_kinds module_init eq_refl).
Defined.

Lemma no_sensors_no_frame_size_witness :
  PyDict.get no_sensors "height" = None /\
  exists cfg agent,
    make_cfg bare_engine bare_agent no_sensors module_init = (Ok cfg, module_init) /\
    agents cfg = [agent] /\
    sensor_specifications agent = [] /\
    getattr (sim_cfg cfg) "scene_id" = Some (VStr "apartment.glb").
Proof.
  split; [reflexivity|].
  exact (no_sensors_no_frame_size bare_engine bare_agent no_sensors module_init
           (VStr "apartment.glb") eq_refl eq_refl eq_refl).
Defined.

Lemma sensors_not_a_dict_witness :
  exists msg,
    make_cfg bare_engine bare_agent sensors_as_list module_init =
      (Raise (AttributeError msg), module_init).
Proof.
  apply (sensors_not_a_dict bare_engine bare_agent sensors_as_list module_init
           (VStr "apartment.glb") (VList [VStr "color_sensor"]));
    [reflexivity | reflexivity | reflexivity | intros entries; discriminate].
Defined.

Lemma first_bad_sensor_entry_witness :
  exists msg,
    make_cfg bare_engine bare_agent bad_entry module_init =
      (Raise (TypeError msg), module_init).
Proof.
  apply (first_bad_sensor_entry bare_engine bare_agent bad_entry (VStr "apartment.glb")
           [ ("color_sensor", VDict []) ] [ ("equirect_sensor", VDict []) ]
           "depth_sensor" VNone).
  - reflexivity.
  - reflexivity.
  - reflexivity.
  - constructor; [exists []; reflexivity | constructor].
  - intros _. split; simpl; eauto.
  - intros scfg. discriminate.
Defined.

Lemma sim_cfg_frame_witness :
  exists cfg,
    make_cfg bare_engine bare_agent three_kinds module_init = (Ok cfg, module_init) /\
    cls (sim_cfg cfg) = SimulatorConfiguration /\
    getattr (sim_cfg cfg) "scene_id" = Some (VStr "apartment.glb") /\
    getattr (sim_cfg cfg) "random_seed" = None.
Proof.
  destruct three_kinds_runs as [cfg Hrun]. exists cfg. split; [exact Hrun|].
  destruct (sim_cfg_frame bare_engine bare_agent three_kinds module_init cfg module_init Hrun)
    as (Hcls & Hscene & Hframe).
  split; [exact Hcls|]. split; [exact Hscene|].
  rewrite (Hframe "random_seed"); [reflexivity | not_a_key].
Defined.

Lemma sensor_spec_frame_witness :
  exists cfg fisheye,
    make_cfg bare_engine bare_agent fisheye_hfov module_init = (Ok cfg, module_init) /\
    sensor_specifications_of cfg = [fisheye] /\
    getattr fisheye "hfov" = None /\
    getattr fisheye "sensor_subtype" = None.
Proof.
  destruct fisheye_hfov_runs as [cfg Hrun].
  destruct (sensor_spec_frame bare_engine bare_agent fisheye_hfov module_init cfg
              module_init Hrun) as (entries & Hs & Hall).
  destruct (make_cfg_each_sensor bare_engine bare_agent
              (fun e spec =>
                 cls spec =
                   if substring_in "fisheye" e.1 then FisheyeSensorDoubleSphereSpec
                   else if substring_in "equirect" e.1 then EquirectangularSensorSpec
                   else CameraSensorSpec)
              fisheye_hfov module_init cfg module_init
              (fun e spec => sensor_spec_cls bare_engine _ _ _ _ _ _) Hrun)
    as (entries' & Hs' & Hcls).
  simpl in Hs, Hs'. injection Hs as <-. injection Hs' as <-.
  apply Forall2_cons_inv_l in Hall as (fisheye & ? & Hframe & Hall & Hspecs).
  apply Forall2_nil_inv_l in Hall as ->.
  rewrite Hspecs in Hcls. apply Forall2_cons_1 in Hcls as [Hcls _]. simpl in Hcls.
  rewrite Hcls in Hframe.
  exists cfg, fisheye. split; [exact Hrun|]. split; [exact Hspecs|]. split.
  - rewrite (Hframe "hfov"); [reflexivity | not_a_key].
  - rewrite (Hframe "sensor_subtype"); [reflexivity | not_a_key].
Defined.

Lemma unread_settings_ignored_witness :
  PyDict.get three_kinds "gpu_device_id" = Some (VInt 3) /\
  PyDict.get three_kinds_noisy "gpu_device_id" = Some (VInt 7) /\
  make_cfg bare_engine bare_agent three_kinds module_init =
    make_cfg bare_engine bare_agent three_kinds_noisy module_init.
Proof.
  split; [reflexivity|]. split; [reflexivity|].
  apply (unread_settings_ignored bare_engine bare_agent three_kinds three_kinds_noisy).
  intros k Hk.
  repeat (apply elem_of_cons in Hk as [-> | Hk]; [reflexivity|]).
  apply elem_of_nil in Hk. contradiction.
Defined.

Lemma sensor_settings_read_witness :
  sensor_spec bare_engine three_kinds "color_sensor"
              (VDict [ ("hfov", VInt 75) ]) module_init =
    sensor_spec bare_engine three_kinds "color_sensor"
                (VDict [ ("hfov", VInt 75); ("xi", VFloat (5 # 10)); ("hfow", VInt 60) ])
                module_init /\
  sensor_spec bare_engine three_kinds "fisheye_sensor"
              (VDict [ ("hfov", VInt 75) ]) module_init =
    sensor_spec bare_engine three_kinds "fisheye_sensor"
                (VDict [ ("hfov", VInt 120); ("sensor_subtype", VStr "wide") ])
                module_init.
Proof.
  split.
  - apply (sensor_settings_read bare_engine three_kinds "color_sensor").
    + keys_distinct.
    + keys_distinct.
    + intros k Hk.
      repeat (apply elem_of_cons in Hk as [-> | Hk]; [reflexivity|]).
      apply elem_of_nil in Hk. contradiction.
    + right. right. split; reflexivity.
  - apply (sensor_settings_read bare_engine three_kinds "fisheye_sensor").
    + keys_distinct.
    + keys_distinct.
    + intros k Hk.
      repeat (apply elem_of_cons in Hk as [-> | Hk]; [reflexivity|]).
      apply elem_of_nil in Hk. contradiction.
    + left. apply substring_in_spec. reflexivity.
Defined.

Lemma sensor_uuids_distinct_witness :
  exists cfg,
    make_cfg bare_engine bare_agent three_kinds module_init = (Ok cfg, module_init) /\
    NoDup (map (fun spec => getattr spec "uuid") (sensor_specifications_of cfg)).
Proof.
  destruct three_kinds_runs as [cfg Hrun]. exists cfg. split; [exact Hrun|].
  eapply (sensor_uuids_distinct bare_engine bare_agent three_kinds module_init cfg
            module_init); [exact Hrun | reflexivity | keys_distinct].
Defined.

Lemma sensor_spec_local_witness :
  exists cfg1 cfg2 spec,
    make_cfg bare_engine bare_agent two_sensors module_init = (Ok cfg1, module_init) /\
    make_cfg bare_engine bare_agent two_sensors_swapped module_init =
      (Ok cfg2, module_init) /\
    sensor_specifications_of cfg1 !! 0%nat = Some spec /\
    sensor_specifications_of cfg2 !! 1%nat = Some spec.
Proof.
  destruct two_sensors_runs as [cfg1 Hrun1].
  destruct two_sensors_swapped_runs as [cfg2 Hrun2].
  destruct (sensor_spec_local bare_engine bare_agent two_sensors two_sensors_swapped
              module_init cfg1 module_init cfg2 module_init
              [ ("a", VDict []); ("b", VDict []) ] [ ("b", VDict []); ("a", VDict []) ]
              0%nat 1%nat ("a", VDict [])
              Hrun1 Hrun2 eq_refl eq_refl eq_refl eq_refl eq_refl eq_refl)
    as (spec & H1 & H2).
  exists cfg1, cfg2, spec. repeat split; assumption.
Defined.

Lemma template_key_required_witness :
  PyDict.get (default_sensor_settings stripped_template) "position" = None /\
  make_cfg bare_engine bare_agent two_sensors stripped_template =
    (Raise (KeyError "position"), stripped_template).
Proof.
  split; [reflexivity|].
  apply (template_key_required bare_engine bare_agent two_sensors stripped_template
           (VStr "apartment.glb") "a" [] [ ("b", VDict []) ]);
    [reflexivity | reflexivity | reflexivity | simpl; eauto | reflexivity | reflexivity].
Defined.
